(** * vue-number-format: the edit engine of [src/core.ts]

    A shallow embedding of the handlers of [core.ts] ([updateValue],
    [inputHandler], [blurHandler], [keydownHandler]) together with the
    properties of the specification that concern them.

    Conventions of the embedding.
    - A JavaScript string is a [string]; indices count characters.
    - A JavaScript number is a [number]: [NaN] or an exact decimal
      [Dec m e], standing for [m / 10^e].  Every finite double is such a
      decimal; the rounding performed when a literal is read and the two
      infinities are outside the model.
    - [undefined] and [null] are [None].  An input whose [selectionEnd]
      is [null] is one whose type has no selection; on such an input, and
      on no other, [setSelectionRange] throws an [InvalidStateError].
    - A handler returns the element after the call together with the
      trace of what it did to the outside world ([Effect]): the calls of
      [preventDefault], [stopPropagation], [setSelectionRange] and
      [dispatchEvent].  Listeners run by [dispatchEvent] are wired in the
      directive, which is not part of [core.ts]; the trace records the
      dispatched event instead of running them.  A trace that ends with
      [throws err] is that of a call ended there by the exception [err],
      and the element is the one reached at that point.
    - The class [NumberFormat] lives in [number-format.ts] and the regular
      expression engine in the host; the handlers are parameterised over
      both ([NumberFormat], [Host]). *)

From Stdlib Require Import ZArith List Bool Ascii String DecimalString Lia.
Import ListNotations.
Local Open Scope string_scope.
Local Open Scope Z_scope.

(** ** JavaScript values *)

Module JS.

(** [number]: [Dec m e] is the decimal [m / 10^e]. *)
Inductive number : Type :=
| NaN
| Dec (m : Z) (e : nat).

Definition scale (e : nat) : Z := 10 ^ Z.of_nat e.

(** [a < b] on numbers; any comparison with [NaN] is false. *)
Definition lt (a b : number) : bool :=
  match a, b with
  | Dec m1 e1, Dec m2 e2 => m1 * scale e2 <? m2 * scale e1
  | _, _ => false
  end.

(** [a > b]. *)
Definition gt (a b : number) : bool := lt b a.

(** [a >= b]. *)
Definition ge (a b : number) : bool :=
  match a, b with
  | Dec m1 e1, Dec m2 e2 => m2 * scale e1 <=? m1 * scale e2
  | _, _ => false
  end.

(** [a === b] on numbers: [NaN] differs from itself. *)
Definition number_eq (a b : number) : bool :=
  match a, b with
  | Dec m1 e1, Dec m2 e2 => m1 * scale e2 =? m2 * scale e1
  | _, _ => false
  end.

Definition zero : number := Dec 0 0.
Definition of_Z (z : Z) : number := Dec z 0.

(** ToBoolean on a number: [0] and [NaN] are falsy. *)
Definition number_truthy (n : number) : bool :=
  match n with
  | NaN => false
  | Dec m _ => negb (m =? 0)
  end.

(** ToBoolean on a string: only the empty string is falsy. *)
Definition string_truthy (s : string) : bool :=
  match s with
  | EmptyString => false
  | String _ _ => true
  end.

(** [s.length] *)
Definition len (s : string) : Z := Z.of_nat (String.length s).

(** [s.slice(a, b)]: a negative index counts from the end, both ends
    are clamped to the string, an empty range gives [""]. *)
Definition slice (s : string) (a b : Z) : string :=
  let from := if a <? 0 then Z.max (len s + a) 0 else Z.min a (len s) in
  let to := if b <? 0 then Z.max (len s + b) 0 else Z.min b (len s) in
  substring (Z.to_nat from) (Z.to_nat (Z.max (to - from) 0)) s.

(** Drop the first [n] characters. *)
Fixpoint drop (n : nat) (s : string) : string :=
  match n, s with
  | O, _ => s
  | S _, EmptyString => EmptyString
  | S n', String _ s' => drop n' s'
  end.

(** [s.replace(pat, repl)] with a string pattern and a replacement
    without [$]: only the first occurrence of [pat], searched from the
    left, is replaced; the empty pattern occurs at index 0. *)
Fixpoint replace (pat repl s : string) : string :=
  if String.prefix pat s then repl ++ drop (String.length pat) s
  else match s with
       | EmptyString => EmptyString
       | String c s' => String c (replace pat repl s')
       end.

(** [s.includes(pat)] *)
Fixpoint includes (pat s : string) : bool :=
  String.prefix pat s ||
  match s with
  | EmptyString => false
  | String _ s' => includes pat s'
  end.

(** [Math.max] on integers. *)
Definition Math_max (a b : Z) : Z := Z.max a b.

End JS.

Import JS.

(** ** Data of [core.ts] *)

(** [type Input = number | string] *)
Inductive Input : Type :=
| Num (n : number)
| Str (s : string).

(** ToBoolean on an [Input]. *)
Definition truthy (v : Input) : bool :=
  match v with
  | Num n => number_truthy n
  | Str s => string_truthy s
  end.

(** [a === b] on values that are [undefined] or an [Input]. *)
Definition strict_eq (a b : option Input) : bool :=
  match a, b with
  | None, None => true
  | Some (Num x), Some (Num y) => number_eq x y
  | Some (Str x), Some (Str y) => String.eqb x y
  | _, _ => false
  end.

(** [interface Options].  [min] and [max] may be left unset. *)
Record Options : Type := {
  prefix : string;
  suffix : string;
  separator : string;
  decimal : string;
  precision : nat;
  minimumFractionDigits : nat;
  prefill : bool;
  reverseFill : bool;
  min : option number;
  max : option number;
  nullValue : string
}.

(** [interface CustomInputElement]: the DOM fields the handlers read
    ([value], [selectionEnd]) and the ones the engine adds. *)
Record CustomInputElement : Type := {
  value : string;
  selectionEnd : option nat;
  options : Options;
  masked : option Input;
  unmaskedValue : option Input;
  oldValue : option Input
}.

(** [detail] of a [CustomEvent]. *)
Record Detail : Type := { facade : bool }.

(** An event as the handlers see it: its type and its [detail]. *)
Record CustomInputEvent : Type := {
  type : string;
  detail : option Detail
}.

(** [detail?.facade] as a condition. *)
Definition is_facade (ev : CustomInputEvent) : bool :=
  match detail ev with
  | Some d => facade d
  | None => false
  end.

Record KeyboardEvent : Type := {
  keyCode : Z;
  key : string
}.

(** [FacadeInputEvent()] and [FacadeChangeEvent()] *)
Definition FacadeInputEvent : CustomInputEvent :=
  {| type := "input"; detail := Some {| facade := true |} |}.
Definition FacadeChangeEvent : CustomInputEvent :=
  {| type := "change"; detail := Some {| facade := true |} |}.

(** [new Event('input')] *)
Definition Event (t : string) : CustomInputEvent :=
  {| type := t; detail := None |}.

(** What a handler does besides updating the element. *)
Inductive Effect : Type :=
| preventDefault
| stopPropagation
| setSelectionRange (start finish : Z)
| dispatchEvent (ev : CustomInputEvent)
| throws (err : string).

(** Whether a trace ends a call by an exception. *)
Definition thrown (effs : list Effect) : bool :=
  existsb (fun e => match e with throws _ => true | _ => false end) effs.

(** The result of a handler that may throw. *)
Inductive Outcome (A : Type) : Type :=
| Returned (a : A)
| Thrown (err : string).
Arguments Returned {A} a.
Arguments Thrown {A} err.

(** ** The collaborators of [core.ts] *)

(** The class [NumberFormat] of [number-format.ts], as [updateValue]
    uses it.  [clean(flag)] stores the flag in the formatter and returns
    the formatter; [format] and [unformat] then run under the flag last
    stored, which is their [bool] argument here. *)
Class NumberFormat : Type := {
  format : Options -> bool -> Input -> string;
  unformat : Options -> bool -> Input -> string
}.

(** The host: regular expressions and [Number(string)].
    [RegExp_new src] is [new RegExp(src, 'g')], [None] when the source is
    not a regular expression (the constructor throws a SyntaxError);
    [RegExp_replace s re] is [s.replace(re, '')]. *)
Class Host : Type := {
  RegExp : Type;
  RegExp_new : string -> option RegExp;
  RegExp_replace : string -> RegExp -> string;
  Number : string -> number
}.

(** ** The handlers of [core.ts] *)

Local Open Scope list_scope.

Section Core.

Context {NF : NumberFormat} {H : Host}.

(** Record update for the fields the handlers assign. *)
Definition set_value (v : string) (el : CustomInputElement) : CustomInputElement :=
  {| value := v; selectionEnd := selectionEnd el; options := options el;
     masked := masked el; unmaskedValue := unmaskedValue el;
     oldValue := oldValue el |}.

Definition set_masked (m u : string) (el : CustomInputElement) : CustomInputElement :=
  {| value := value el; selectionEnd := selectionEnd el; options := options el;
     masked := Some (Str m); unmaskedValue := Some (Str u);
     oldValue := oldValue el |}.

Definition set_oldValue (v : option Input) (el : CustomInputElement) : CustomInputElement :=
  {| value := value el; selectionEnd := selectionEnd el; options := options el;
     masked := masked el; unmaskedValue := unmaskedValue el;
     oldValue := v |}.

(** [updateCursor(el, position)]: [setSelectionRange] is called once
    directly and once more while the argument of [setTimeout] is
    evaluated.  On an input without selection the first call throws. *)
Definition updateCursor (el : CustomInputElement) (position : Z) : list Effect :=
  match selectionEnd el with
  | Some _ =>
      [setSelectionRange position position; setSelectionRange position position]
  | None => [throws "InvalidStateError"]
  end.

(** [options.max && x > options.max], giving the bound when it holds. *)
Definition above_max (o : Options) (x : number) : option number :=
  match max o with
  | Some mx => if number_truthy mx && gt x mx then Some mx else None
  | None => None
  end.

(** [options.min && x < options.min], giving the bound when it holds. *)
Definition below_min (o : Options) (x : number) : option number :=
  match min o with
  | Some mn => if number_truthy mn && lt x mn then Some mn else None
  | None => None
  end.

(** The range check of [updateValue], lines 121-130: the pair
    [(masked, unmasked)] after it.  [fl] is the flag the formatter holds
    at that point. *)
Definition clamp (o : Options) (fl clean : bool) (masked0 unmasked0 : string)
  : string * string :=
  if clean then
    match above_max o (Number unmasked0) with
    | Some mx => (format o fl (Num mx), unformat o fl (Num mx))
    | None =>
        match below_min o (Number unmasked0) with
        | Some mn => (format o fl (Num mn), unformat o fl (Num mn))
        | None => (masked0, unmasked0)
        end
    end
  else (masked0, unmasked0).

(** [updateValue(el, vnode, { emit, force, clean })].  [vnode] is the
    value of [vnode?.props?.value], [None] when it is undefined. *)
Definition updateValue (el : CustomInputElement) (vnode : option Input)
           (emit force clean : bool) : CustomInputElement * list Effect :=
  let o := options el in
  let currentValue :=
    match vnode with
    | Some v => if truthy v then v else Str (value el)
    | None => Str (value el)
    end in
  if force || negb (strict_eq (oldValue el) (Some currentValue)) then
    let masked0 := format o (clean && negb (reverseFill o)) currentValue in
    let fl := negb (reverseFill o) in
    let unmasked0 := unformat o fl currentValue in
    let '(masked1, unmasked1) := clamp o fl clean masked0 unmasked0 in
    let el1 := set_masked masked1 unmasked1 el in
    let el2 := if String.eqb (value el1) masked1 then el1 else set_value masked1 el1 in
    (el2, if emit then [dispatchEvent FacadeInputEvent] else [])
  else (el, []).

(** The pair [(masked, unmasked)] that [updateValue] computes from the
    text of the field when it is given no vnode. *)
Definition recomputed (el : CustomInputElement) (clean : bool) : string * string :=
  let o := options el in
  clamp o (negb (reverseFill o)) clean
        (format o (clean && negb (reverseFill o)) (Str (value el)))
        (unformat o (negb (reverseFill o)) (Str (value el))).

(** The caret arithmetic shared by [inputHandler] (lines 171-178) and
    [keydownHandler] (lines 230-237): [positionFromEnd] is raised to the
    length of a non-empty suffix, turned into a position from the start
    of the new text, and raised to the length of a non-empty prefix. *)
Definition caret (o : Options) (newLength positionFromEnd : Z) : Z :=
  let p1 := if string_truthy (suffix o)
            then Math_max positionFromEnd (len (suffix o))
            else positionFromEnd in
  let p2 := newLength - p1 in
  if string_truthy (prefix o) then Math_max p2 (len (prefix o)) else p2.

(** [positionFromEnd] as [inputHandler] first computes it. *)
Definition positionFromEnd_of (target : CustomInputElement) : Z :=
  match selectionEnd target with
  | Some (S n) => len (value target) - Z.of_nat (S n)
  | _ => len (value target)
  end.

(** [inputHandler(event)], with [target] the element [event.target].
    The last component is the returned value: [Some false] or
    [undefined].  When [updateCursor] throws, the handler ends there:
    [oldValue] is not assigned and nothing is dispatched. *)
Definition inputHandler (event : CustomInputEvent) (target : CustomInputElement)
  : CustomInputElement * list Effect * option bool :=
  if is_facade event then (target, [], Some false)
  else
    let oldValue0 := oldValue target in
    let o := options target in
    let masked0 := masked target in
    let positionFromEnd := positionFromEnd_of target in
    let '(target1, eff1) := updateValue target None false false false in
    let position := caret o (len (value target1)) positionFromEnd in
    let cursor := updateCursor target1 position in
    let eff := [stopPropagation] ++ eff1 ++ cursor in
    if thrown cursor then (target1, eff, None)
    else if negb (strict_eq oldValue0 (Some (Str (value target1)))) then
      (set_oldValue masked0 target1, eff ++ [dispatchEvent FacadeInputEvent], None)
    else (target1, eff, None).

(** [blurHandler(event)], with [target] the element [event.target]. *)
Definition blurHandler (event : CustomInputEvent) (target : CustomInputElement)
  : CustomInputElement * list Effect * option bool :=
  if is_facade event then (target, [], Some false)
  else
    let oldValue0 := oldValue target in
    let masked0 := masked target in
    let '(target1, eff1) := updateValue target None true true true in
    if negb (strict_eq oldValue0 (Some (Str (value target1)))) then
      (set_oldValue masked0 target1, eff1 ++ [dispatchEvent FacadeChangeEvent], None)
    else (target1, eff1, None).

(** [[a, b, ...].includes(x)] on key codes and on strings. *)
Definition includes_code (l : list Z) (x : Z) : bool := existsb (Z.eqb x) l.
Definition includes_string (l : list string) (x : string) : bool :=
  existsb (String.eqb x) l.

(** [options.min < 0]; an unset bound compares false. *)
Definition canNegativeInput (o : Options) : bool :=
  match min o with
  | Some mn => lt mn zero
  | None => false
  end.

(** The backspace branch of [keydownHandler], lines 221-245. *)
Definition backspace (el : CustomInputElement) : CustomInputElement * list Effect :=
  let o := options el in
  let selectionEnd0 := match selectionEnd el with
                       | Some n => Z.of_nat n
                       | None => 0
                       end in
  let character := slice (value el) (selectionEnd0 - 1) selectionEnd0 in
  let replace0 := slice (value el) (selectionEnd0 - 2) selectionEnd0 in
  if String.eqb character (separator o) then
    let positionFromEnd := len (value el) - selectionEnd0 in
    let el1 := set_value (replace replace0 "" (value el)) el in
    let position := caret o (len (value el1)) positionFromEnd in
    let cursor := updateCursor el1 position in
    if thrown cursor then (el1, [preventDefault] ++ cursor)
    else (el1, [preventDefault] ++ cursor ++ [dispatchEvent (Event "input")])
  else if includes_string [prefix o; "-"] character then
    (set_value "" el, [preventDefault; dispatchEvent (Event "input")])
  else (el, []).

(** [keydownHandler(event, el)].  The regular expression is built from
    the prefix and the suffix as they are, without escaping. *)
Definition keydownHandler (event : KeyboardEvent) (el : CustomInputElement)
  : Outcome (CustomInputElement * list Effect) :=
  let o := options el in
  match RegExp_new (prefix o ++ "|" ++ suffix o)%string with
  | None => Thrown "SyntaxError"
  | Some regExp =>
      let newValue := RegExp_replace (value el) regExp in
      if (includes_code [110; 190] (keyCode event) || String.eqb (key event) (decimal o))
         && includes (decimal o) newValue
      then Returned (el, [preventDefault])
      else if includes_code [109] (keyCode event) && negb (canNegativeInput o)
      then Returned (el, [preventDefault])
      else if includes_code [8] (keyCode event)
      then Returned (backspace el)
      else Returned (el, [])
  end.

End Core.

(** ** The formatter, from the specification *)

Module NumberFormatSpec.

Definition chars : Type := list ascii.

Definition is_digit (c : ascii) : bool :=
  match c with
  | "0" | "1" | "2" | "3" | "4" | "5" | "6" | "7" | "8" | "9" => true
  | _ => false
  end%char.

(** The digit after [c], and whether it wrapped around. *)
Definition succ_digit (c : ascii) : ascii * bool :=
  match c with
  | "0" => ("1", false) | "1" => ("2", false) | "2" => ("3", false)
  | "3" => ("4", false) | "4" => ("5", false) | "5" => ("6", false)
  | "6" => ("7", false) | "7" => ("8", false) | "8" => ("9", false)
  | "9" => ("0", true)
  | _ => (c, false)
  end%char.

Definition ge5 (c : ascii) : bool :=
  match c with
  | "5" | "6" | "7" | "8" | "9" => true
  | _ => false
  end%char.

(** Add one to a numeral given with its last digit first. *)
Fixpoint incr (l : chars) : chars :=
  match l with
  | [] => ["1"%char]
  | c :: l' =>
      let (d, carry) := succ_digit c in
      if carry then d :: incr l' else d :: l'
  end.

Definition zeros (n : nat) : chars := repeat "0"%char n.

Fixpoint strip_zeros (l : chars) : chars :=
  match l with
  | c :: l' => if Ascii.eqb c "0" then strip_zeros l' else l
  | [] => []
  end.

(** The integer part without leading zeros, ["0"] when nothing is left. *)
Definition norm_int (l : chars) : chars :=
  match strip_zeros l with
  | [] => ["0"%char]
  | l' => l'
  end.

(** Round [ip.fp] to [p] fractional digits, half away from zero on the
    magnitude: the digits beyond the [p]-th are cut and the numeral is
    raised by one unit of the last kept digit when the first cut digit
    is 5 or more.  The result is the pair of the integer digits and of
    exactly [p] fractional digits. *)
Definition round_to (p : nat) (ip fp : chars) : chars * chars :=
  let all := ip ++ firstn p (fp ++ zeros p) in
  let up := match nth_error fp p with
            | Some c => ge5 c
            | None => false
            end in
  let all' := if up then rev (incr (rev all)) else all in
  let n := (List.length all' - p)%nat in
  (firstn n all', skipn n all').

Definition drop_trailing_zeros (l : chars) : chars :=
  rev (strip_zeros (rev l)).

(** Trailing zeros beyond the [m]-th fractional digit are trimmed, and
    the fraction is padded with zeros up to [m] digits. *)
Definition trim_frac (m : nat) (fp : chars) : chars :=
  let l := firstn m fp ++ drop_trailing_zeros (skipn m fp) in
  l ++ zeros (m - List.length l).

Definition sep_chars (sep : option ascii) : chars :=
  match sep with
  | Some c => [c]
  | None => []
  end.

(** Grouping of a numeral given with its last digit first: a separator
    after every third digit that is followed by another digit. *)
Fixpoint group_le (sep : option ascii) (l : chars) : chars :=
  match l with
  | a :: ((b :: (c :: ((_ :: _) as rest))))  =>
      a :: b :: c :: sep_chars sep ++ group_le sep rest
  | _ => l
  end.

Definition group (sep : option ascii) (l : chars) : chars :=
  rev (group_le sep (rev l)).

(** The separator and the decimal character of the options; the data
    model makes both single characters, so the first one is taken. *)
Definition sep_of (o : Options) : option ascii :=
  match separator o with
  | String c _ => Some c
  | EmptyString => None
  end.

Definition dec_of (o : Options) : ascii :=
  match decimal o with
  | String c _ => c
  | EmptyString => "."%char
  end.

Definition sign_chars (neg : bool) : chars := if neg then ["-"%char] else [].

Definition frac_chars (dec : ascii) (fp : chars) : chars :=
  match fp with
  | [] => []
  | _ => dec :: fp
  end.

(** The display string: prefix, sign, grouped integer part, decimal
    character and fraction, suffix. *)
Definition render (o : Options) (neg : bool) (ip fp : chars) : chars :=
  list_ascii_of_string (prefix o) ++ sign_chars neg ++ group (sep_of o) ip
    ++ frac_chars (dec_of o) fp ++ list_ascii_of_string (suffix o).

(** A leading sign and the rest. *)
Definition split_sign (l : chars) : bool * chars :=
  match l with
  | c :: l' => if Ascii.eqb c "-" then (true, l') else (false, l)
  | [] => (false, [])
  end.

(** The characters before the first [dot] and the ones after it. *)
Fixpoint split_at (dot : ascii) (l : chars) : chars * chars :=
  match l with
  | [] => ([], [])
  | c :: l' =>
      if Ascii.eqb c dot then ([], l')
      else let (a, b) := split_at dot l' in (c :: a, b)
  end.

Definition digits (l : chars) : chars := filter is_digit l.

Definition is_nil (l : chars) : bool :=
  match l with
  | [] => true
  | _ => false
  end.

(** Modelled from the spec: [format] of the class [NumberFormat]
    ([number-format.ts] is not among the sources), on a numeric-looking
    string: an optional leading [-], digits, at most one [.].  Section
    4.1: an empty value gives [""] unless [prefill] asks for a formatted
    zero; the fraction is rounded to [precision] digits, half away from
    zero, and its trailing zeros are trimmed down to
    [minimumFractionDigits]; the integer part is grouped by three; the
    sign stands between the prefix and the first digit.  Characters
    outside the grammar are dropped. *)
Definition format_chars (o : Options) (s : chars) : chars :=
  let (neg, body) := split_sign s in
  let (a, b) := split_at "." body in
  let ip := digits a in
  let fp := digits b in
  let empty := is_nil (ip ++ fp) in
  if empty && negb (prefill o) then []
  else
    let (ip', fp') := round_to (precision o) ip fp in
    render o (neg && negb empty) (norm_int ip')
           (trim_frac (minimumFractionDigits o) fp').

Fixpoint starts_with (p l : chars) : bool :=
  match p, l with
  | [], _ => true
  | _ :: _, [] => false
  | a :: p', b :: l' => Ascii.eqb a b && starts_with p' l'
  end.

Definition strip_prefix (p l : chars) : chars :=
  if starts_with p l then skipn (List.length p) l else l.

Definition strip_suffix (q l : chars) : chars :=
  rev (strip_prefix (rev q) (rev l)).

Definition remove_sep (sep : option ascii) (l : chars) : chars :=
  match sep with
  | Some c => filter (fun x => negb (Ascii.eqb x c)) l
  | None => l
  end.

(** Digits are kept, the first decimal character becomes [.], every
    other character is dropped. *)
Fixpoint clean_chars (dec : ascii) (seen : bool) (l : chars) : chars :=
  match l with
  | [] => []
  | c :: l' =>
      if is_digit c then c :: clean_chars dec seen l'
      else if Ascii.eqb c dec && negb seen then "."%char :: clean_chars dec true l'
      else clean_chars dec seen l'
  end.

Section Unformat.

(** The collapse of reverse-fill mode, which the specification names
    without fixing it; [unformat] is parameterised over it. *)
Variable collapse : Options -> chars -> chars.

(** Modelled from the spec: [unformat] of the class [NumberFormat]
    ([number-format.ts] is not among the sources).  Section 4.1: the
    prefix, the suffix and every separator are stripped, the decimal
    character becomes [.], characters that are not a digit, the
    leading sign or the decimal character are dropped, and what has
    no digit gives [""]; in reverse-fill mode the result is
    collapsed. *)
Definition unformat_chars (o : Options) (s : chars) : chars :=
  let body := strip_suffix (list_ascii_of_string (suffix o))
                (strip_prefix (list_ascii_of_string (prefix o)) s) in
  let (neg, rest) := split_sign (remove_sep (sep_of o) body) in
  let num := clean_chars (dec_of o) false rest in
  if is_nil (digits num) then []
  else
    let r := sign_chars neg ++ num in
    if reverseFill o then collapse o r else r.

End Unformat.

(** The decimal digits of a natural number. *)
Definition digits_of_N (n : N) : chars :=
  list_ascii_of_string (DecimalString.NilZero.string_of_uint (N.to_uint n)).

(** A number as a numeric string: sign, integer digits and, when the
    scale is not zero, [.] and the fractional digits. *)
Definition number_to_chars (n : number) : chars :=
  match n with
  | NaN => list_ascii_of_string "NaN"
  | Dec m e =>
      let ds := digits_of_N (Z.to_N (Z.abs m)) in
      let ds' := zeros (S e - List.length ds) ++ ds in
      let k := (List.length ds' - e)%nat in
      sign_chars (m <? 0) ++ firstn k ds' ++ frac_chars "." (skipn k ds')
  end.

Definition input_chars (v : Input) : chars :=
  match v with
  | Num n => number_to_chars n
  | Str s => list_ascii_of_string s
  end.

Definition format (o : Options) (v : Input) : string :=
  string_of_list_ascii (format_chars o (input_chars v)).

Definition unformat (collapse : Options -> chars -> chars)
           (o : Options) (v : Input) : string :=
  string_of_list_ascii (unformat_chars collapse o (input_chars v)).


(** The options of the data model: the separator and the decimal
    character are single characters, [minimumFractionDigits] is at most
    [precision]; and neither character can be taken for a digit, the
    separator for the sign, or one for the other. *)
Definition well_formed (o : Options) : bool :=
  (String.length (separator o) =? 1)%nat
  && (String.length (decimal o) =? 1)%nat
  && (minimumFractionDigits o <=? precision o)%nat
  && negb (is_digit (dec_of o))
  && match sep_of o with
     | Some c => negb (is_digit c) && negb (Ascii.eqb c "-")
                 && negb (Ascii.eqb c (dec_of o))
     | None => true
     end.

(** The reverse-fill collapse for cents-first entry (section 4.1 and
    the glossary): the digits are read without regard to a decimal
    marker and the last [precision] of them are the fraction. *)
Definition cents_first (o : Options) (s : chars) : chars :=
  let (neg, body) := split_sign s in
  let ds := digits body in
  let ds' := zeros (S (precision o) - List.length ds) ++ ds in
  let k := (List.length ds' - precision o)%nat in
  sign_chars neg ++ firstn k ds' ++ frac_chars "." (skipn k ds').

End NumberFormatSpec.

(** ** A formatter and a host to run the handlers on *)

(** The formatter of the specification as a [NumberFormat].  Raw text is
    unformatted and then formatted (section 4.2, step 2); a number is
    formatted as it is, and its unformatted value is its numeric string.
    The specification gives the flag of [clean] no meaning of its own. *)
Definition spec_format (o : Options) (fl : bool) (v : Input) : string :=
  match v with
  | Num _ => NumberFormatSpec.format o v
  | Str _ =>
      NumberFormatSpec.format o
        (Str (NumberFormatSpec.unformat NumberFormatSpec.cents_first o v))
  end.

Definition spec_unformat (o : Options) (fl : bool) (v : Input) : string :=
  match v with
  | Num n => string_of_list_ascii (NumberFormatSpec.number_to_chars n)
  | Str _ => NumberFormatSpec.unformat NumberFormatSpec.cents_first o v
  end.

Definition SpecNumberFormat : NumberFormat :=
  {| format := spec_format; unformat := spec_unformat |}.

Module LiteralHost.

(** Characters with a meaning of their own in a regular expression. *)
Definition special (c : ascii) : bool :=
  existsb (Ascii.eqb c)
          (list_ascii_of_string "\^$.|?*+()[]{}").

Fixpoint all_plain (s : string) : bool :=
  match s with
  | EmptyString => true
  | String c s' => negb (special c) && all_plain s'
  end.

(** The text before the first [|] and the text after it. *)
Fixpoint split_bar (s : string) : string * string :=
  match s with
  | EmptyString => (EmptyString, EmptyString)
  | String c s' =>
      if Ascii.eqb c "|" then (EmptyString, s')
      else let (a, b) := split_bar s' in (String c a, b)
  end.

(** The source [a|b] of two literal strings is accepted; this host
    knows no other regular expression. *)
Definition compile (src : string) : option (string * string) :=
  let (a, b) := split_bar src in
  if all_plain a && all_plain b && includes "|" src then Some (a, b) else None.

(** [s.replace(/a|b/g, '')]: at each position [a] is tried before [b];
    a match is removed and the search resumes behind it; an empty match
    removes nothing and the search moves on by one character. *)
Fixpoint strip (fuel : nat) (a b s : string) : string :=
  match fuel, s with
  | S f, String c s' =>
      if String.prefix a s then
        if string_truthy a then strip f a b (drop (String.length a) s)
        else String c (strip f a b s')
      else if String.prefix b s then
        if string_truthy b then strip f a b (drop (String.length b) s)
        else String c (strip f a b s')
      else String c (strip f a b s')
  | _, _ => s
  end.

Definition digit_value (c : ascii) : Z := Z.of_nat (nat_of_ascii c) - 48.

Definition of_digits (l : list ascii) : Z :=
  fold_left (fun acc c => 10 * acc + digit_value c) l 0.

(** [Number(s)] on decimal literals: an optional sign, digits, at most
    one [.], at least one digit; the empty string is [0]; any other
    string is read as [NaN]. *)
Definition Number_decimal (s : string) : number :=
  match list_ascii_of_string s with
  | [] => zero
  | c :: l' =>
      let (neg, body) :=
        if Ascii.eqb c "-" then (true, l')
        else if Ascii.eqb c "+" then (false, l')
        else (false, c :: l') in
      let (a, b) := NumberFormatSpec.split_at "." body in
      if forallb NumberFormatSpec.is_digit (a ++ b)
         && negb (NumberFormatSpec.is_nil (a ++ b))
      then Dec ((if neg then -1 else 1) * of_digits (a ++ b)) (List.length b)
      else NaN
  end.

Definition host : Host :=
  {| RegExp := string * string;
     RegExp_new := compile;
     RegExp_replace := fun s re => strip (S (String.length s)) (fst re) (snd re) s;
     Number := Number_decimal |}.

End LiteralHost.

(** ** Statements of the specification and sample fields *)

(** The components of a handler's result. *)
Definition element_of {A : Type} (r : CustomInputElement * list Effect * A)
  : CustomInputElement := fst (fst r).
Definition effects_of {A : Type} (r : CustomInputElement * list Effect * A)
  : list Effect := snd (fst r).

(** The options of the data model that make sense of a key event: the
    separator and the decimal character are single characters. *)
Definition single_char (s : string) : Prop := String.length s = 1%nat.

(** A keydown of the backspace key. *)
Definition is_backspace (event : KeyboardEvent) : Prop :=
  keyCode event = 8 /\ key event = "Backspace".


Module Samples.

(** No prefix, no suffix, [,] and [.], whole numbers, no bounds. *)
Definition plain : Options :=
  {| prefix := ""; suffix := ""; separator := ","; decimal := ".";
     precision := 0; minimumFractionDigits := 0; prefill := false;
     reverseFill := false; min := None; max := None; nullValue := "" |}.

Definition with_prefix (p : string) (o : Options) : Options :=
  {| prefix := p; suffix := suffix o; separator := separator o;
     decimal := decimal o; precision := precision o;
     minimumFractionDigits := minimumFractionDigits o; prefill := prefill o;
     reverseFill := reverseFill o; min := min o; max := max o;
     nullValue := nullValue o |}.

Definition with_bounds (mn mx : option number) (o : Options) : Options :=
  {| prefix := prefix o; suffix := suffix o; separator := separator o;
     decimal := decimal o; precision := precision o;
     minimumFractionDigits := minimumFractionDigits o; prefill := prefill o;
     reverseFill := reverseFill o; min := mn; max := mx;
     nullValue := nullValue o |}.

(** A field showing [v] with the caret at [sel], whose engine state is
    the masked value [m] with unmasked value [u] and [oldValue] [old]. *)
Definition field (o : Options) (v : string) (sel : nat)
           (old : option Input) (m u : string) : CustomInputElement :=
  {| value := v; selectionEnd := Some sel; options := o;
     masked := Some (Str m); unmaskedValue := Some (Str u); oldValue := old |}.

(** Two fraction digits, always shown. *)
Definition cents : Options :=
  {| prefix := ""; suffix := ""; separator := ","; decimal := ".";
     precision := 2; minimumFractionDigits := 2; prefill := false;
     reverseFill := false; min := None; max := None; nullValue := "" |}.

(** A prefix, a suffix, and up to two fraction digits. *)
Definition dollars : Options :=
  {| prefix := "$"; suffix := " USD"; separator := ","; decimal := ".";
     precision := 2; minimumFractionDigits := 0; prefill := true;
     reverseFill := false; min := None; max := None; nullValue := "" |}.

(** The same in reverse-fill mode, for cents-first entry. *)
Definition dollars_cents_first : Options :=
  {| prefix := "$"; suffix := " USD"; separator := ","; decimal := ".";
     precision := 2; minimumFractionDigits := 0; prefill := true;
     reverseFill := true; min := None; max := None; nullValue := "" |}.

Definition with_suffix (q : string) (o : Options) : Options :=
  {| prefix := prefix o; suffix := q; separator := separator o;
     decimal := decimal o; precision := precision o;
     minimumFractionDigits := minimumFractionDigits o; prefill := prefill o;
     reverseFill := reverseFill o; min := min o; max := max o;
     nullValue := nullValue o |}.

Definition Backspace : KeyboardEvent := {| keyCode := 8; key := "Backspace" |}.
(** The [-] key of the main row and the one of the numeric keypad. *)
Definition Minus : KeyboardEvent := {| keyCode := 189; key := "-" |}.
Definition NumpadSubtract : KeyboardEvent := {| keyCode := 109; key := "-" |}.

End Samples.

(** ** The element a directive is attached to *)

(** The part of the DOM [getInputElement] looks at: an element is an
    [input], which has no children, or another element with its
    children in document order. *)
#[warnings="-register-all"]
Inductive HTMLElement : Type :=
| HTMLInputElement (el : CustomInputElement)
| HTMLOtherElement (children : list HTMLElement).

(** The first element of a list on which [f] gives a result. *)
Definition find_first {A B : Type} (f : A -> option B) : list A -> option B :=
  fix go (l : list A) : option B :=
    match l with
    | [] => None
    | a :: l' =>
        match f a with
        | Some b => Some b
        | None => go l'
        end
    end.

(** The first [input] of a tree in document order, the root included. *)
Fixpoint first_input (el : HTMLElement) : option CustomInputElement :=
  match el with
  | HTMLInputElement input => Some input
  | HTMLOtherElement children => find_first first_input children
  end.

(** [el.querySelector('input')]: the first [input] among the
    descendants of [el], in document order. *)
Definition querySelector_input (el : HTMLElement) : option CustomInputElement :=
  match el with
  | HTMLInputElement _ => None
  | HTMLOtherElement children => find_first first_input children
  end.

(** [getInputElement(el)] *)
Definition getInputElement (el : HTMLElement) : Outcome CustomInputElement :=
  let inputElement :=
    match el with
    | HTMLInputElement input => Some input
    | HTMLOtherElement _ => querySelector_input el
    end in
  match inputElement with
  | None => Thrown "facade directive requires an input element"
  | Some input => Returned input
  end.

(** All the [input] elements of a tree, in document order. *)
Fixpoint inputs_of (el : HTMLElement) : list CustomInputElement :=
  match el with
  | HTMLInputElement input => [input]
  | HTMLOtherElement children => flat_map inputs_of children
  end.

(** [vnode?.props?.value || el.value], the value [updateValue] formats. *)
Definition currentValue_of (el : CustomInputElement) (vnode : option Input) : Input :=
  match vnode with
  | Some v => if truthy v then v else Str (value el)
  | None => Str (value el)
  end.

(** The character before the caret, as the backspace branch takes it. *)
Definition character_before_caret (el : CustomInputElement) : string :=
  let sel := match selectionEnd el with Some n => Z.of_nat n | None => 0 end in
  slice (value el) (sel - 1) sel.

(** The formatter of the specification giving the null value of the
    options where it would give the empty string (section 4.1 allows
    [nullValue] for an absent value). *)
Definition or_nullValue (o : Options) (r : string) : string :=
  if string_truthy r then r else nullValue o.

Definition NullValueNumberFormat : NumberFormat :=
  {| format := fun o fl v => or_nullValue o (spec_format o fl v);
     unformat := fun o fl v => or_nullValue o (spec_unformat o fl v) |}.

(** The plain options with a null value that is not a number. *)
Definition not_available : Options :=
  {| prefix := ""; suffix := ""; separator := ","; decimal := ".";
     precision := 0; minimumFractionDigits := 0; prefill := false;
     reverseFill := false; min := Some (of_Z 1); max := Some (of_Z 100);
     nullValue := "n/a" |}.

(** * Properties *)

(** ** Strings *)

Lemma substring_nothing (n : nat) (s : string) : substring n 0 s = "".
Proof.
  revert n; induction s as [|c s IH]; intros [|n]; simpl; auto.
Qed.

(** [s.slice(-1, 0)] and [s.slice(-2, 0)] are empty whatever [s] is. *)
Lemma slice_to_start (s : string) (a : Z) : slice s a 0 = "".
Proof.
  unfold slice.
  assert (L : 0 <= len s) by (unfold len; lia).
  change (0 <? 0) with false. cbv iota.
  rewrite (Z.min_l 0 (len s)) by exact L.
  set (from := if a <? 0 then _ else _).
  assert (F : 0 <= from) by (unfold from; destruct (Z.ltb_spec a 0); lia).
  replace (Z.to_nat (Z.max (0 - from) 0)) with 0%nat by lia.
  apply substring_nothing.
Qed.

Lemma eqb_length_differs (s t : string) :
  String.length s <> String.length t -> String.eqb s t = false.
Proof.
  intros D. apply String.eqb_neq. intros ->. now apply D.
Qed.

(** ** [keydownHandler] *)

Section Keydown.

Context {H : Host}.

(** A backspace keydown reaches the backspace branch as soon as the
    regular expression could be built. *)
Lemma keydown_backspace (event : KeyboardEvent) (el : CustomInputElement)
      (re : RegExp) :
  is_backspace event ->
  single_char (decimal (options el)) ->
  RegExp_new (prefix (options el) ++ "|" ++ suffix (options el))%string = Some re ->
  keydownHandler event el = Returned (backspace el).
Proof.
  intros [Code Key] Dec Re. unfold keydownHandler.
  rewrite Re, Code, Key.
  rewrite (eqb_length_differs "Backspace" (decimal (options el))).
  - reflexivity.
  - unfold single_char in Dec. rewrite Dec. discriminate.
Qed.

(** A regular expression that cannot be built ends the handler before
    it looks at the key. *)
Lemma keydown_throws (event : KeyboardEvent) (el : CustomInputElement) :
  RegExp_new (prefix (options el) ++ "|" ++ suffix (options el))%string = None ->
  keydownHandler event el = Thrown "SyntaxError".
Proof.
  intros Re. unfold keydownHandler. now rewrite Re.
Qed.

(** The [-] of the numeric keypad is suppressed when negative input is
    not allowed. *)
Lemma keydown_numpad_minus (event : KeyboardEvent) (el : CustomInputElement)
      (re : RegExp) (mn : number) :
  keyCode event = 109 ->
  min (options el) = Some mn ->
  ge mn zero = true ->
  RegExp_new (prefix (options el) ++ "|" ++ suffix (options el))%string = Some re ->
  keydownHandler event el = Returned (el, [preventDefault]).
Proof.
  intros Code Min Pos Re. unfold keydownHandler.
  rewrite Re, Code.
  assert (N : canNegativeInput (options el) = false).
  { unfold canNegativeInput. rewrite Min.
    destruct mn as [|m e]; simpl in *; [discriminate|].
    unfold scale in *; simpl in *. lia. }
  rewrite N. simpl.
  now destruct (_ && _).
Qed.

(** The backspace branch when the character before the caret is a
    one-character prefix or [-], and not the separator: the field is
    cleared. *)
Lemma backspace_after_prefix_clears (el : CustomInputElement) (c : ascii) :
  let sel := match selectionEnd el with Some n => Z.of_nat n | None => 0 end in
  slice (value el) (sel - 1) sel = String c "" ->
  separator (options el) <> String c "" ->
  prefix (options el) = String c "" \/ c = "-"%char ->
  backspace el = (set_value "" el, [preventDefault; dispatchEvent (Event "input")]).
Proof.
  intros sel Char Sep Pre. unfold backspace. fold sel. rewrite Char.
  destruct (String.eqb_spec (String c "") (separator (options el))) as [E|_];
    [now symmetry in E|].
  unfold includes_string, existsb.
  destruct Pre as [-> | ->].
  - now rewrite String.eqb_refl.
  - now rewrite (String.eqb_refl "-"), orb_true_r.
Qed.

(** C10.  A backspace keydown with the caret at the very start of the
    field (selectionEnd 0 or null) and an empty prefix: the character
    taken before the caret is the empty string, it matches the empty
    prefix, and the handler suppresses the default deletion, clears the
    whole field and dispatches an input event.  The separator and the
    decimal character are single characters, as the data model has
    them, and the regular expression of the handler could be built. *)
Theorem backspace_at_start_with_empty_prefix
        (event : KeyboardEvent) (el : CustomInputElement) (re : RegExp) :
  is_backspace event ->
  single_char (separator (options el)) ->
  single_char (decimal (options el)) ->
  prefix (options el) = "" ->
  selectionEnd el = None \/ selectionEnd el = Some 0%nat ->
  RegExp_new (prefix (options el) ++ "|" ++ suffix (options el))%string = Some re ->
  slice (value el) (0 - 1) 0 = ""
  /\ keydownHandler event el
     = Returned (set_value "" el, [preventDefault; dispatchEvent (Event "input")]).
Proof.
  intros Back Sep Dec Pre Sel Re.
  split; [apply slice_to_start|].
  rewrite (keydown_backspace event el re Back Dec Re).
  f_equal. unfold backspace.
  assert (S0 : match selectionEnd el with Some n => Z.of_nat n | None => 0 end = 0)
    by (destruct Sel as [-> | ->]; reflexivity).
  rewrite S0, !slice_to_start.
  rewrite (eqb_length_differs "" (separator (options el)))
    by (unfold single_char in Sep; rewrite Sep; discriminate).
  now rewrite Pre.
Qed.

End Keydown.

Lemma backspace_at_start_with_empty_prefix_witness :
  keydownHandler (H := LiteralHost.host) Samples.Backspace
                 (Samples.field Samples.plain "1,234" 0 (Some (Str "1,234")) "1,234" "1234")
  = Returned (Samples.field Samples.plain "" 0 (Some (Str "1,234")) "1,234" "1234",
              [preventDefault; dispatchEvent (Event "input")]).
Proof.
  apply (backspace_at_start_with_empty_prefix (H := LiteralHost.host)
           Samples.Backspace
           (Samples.field Samples.plain "1,234" 0 (Some (Str "1,234")) "1,234" "1234")
           ("", "")).
  - split; reflexivity.
  - reflexivity.
  - reflexivity.
  - reflexivity.
  - right; reflexivity.
  - reflexivity.
Defined.

(** ** The keys and positions [keydownHandler] misses *)

Lemma substring_length_le (n m : nat) (s : string) :
  (String.length (substring n m s) <= m)%nat.
Proof.
  revert n m; induction s as [|c s IH]; intros [|n] [|m]; simpl; try lia.
  - specialize (IH 0%nat m). lia.
  - apply (IH n 0%nat).
  - apply (IH n (S m)).
Qed.

(** The character before the caret is at most one character long. *)
Lemma character_before_caret_short (s : string) (sel : Z) :
  0 <= sel -> (String.length (slice s (sel - 1) sel) <= 1)%nat.
Proof.
  intros Pos. unfold slice.
  set (from := if sel - 1 <? 0 then _ else _).
  set (to := if sel <? 0 then _ else _).
  assert (B : Z.max (to - from) 0 <= 1).
  { unfold from, to, len.
    destruct (Z.ltb_spec (sel - 1) 0), (Z.ltb_spec sel 0); lia. }
  pose proof (substring_length_le (Z.to_nat from) (Z.to_nat (Z.max (to - from) 0)) s).
  lia.
Qed.

Section KeydownGaps.

Context {H : Host}.

(** A key that is none of the four the handler knows, and is not the
    decimal character, is left alone. *)
Lemma keydown_other_key (event : KeyboardEvent) (el : CustomInputElement)
      (re : RegExp) :
  ~ In (keyCode event) [110; 190; 109; 8] ->
  key event <> decimal (options el) ->
  RegExp_new (prefix (options el) ++ "|" ++ suffix (options el))%string = Some re ->
  keydownHandler event el = Returned (el, []).
Proof.
  intros Code Key Re. unfold keydownHandler. rewrite Re.
  apply String.eqb_neq in Key. rewrite Key.
  assert (E : forall k, In k [110; 190; 109; 8] -> (keyCode event =? k) = false).
  { intros k I. apply Z.eqb_neq. intros E. apply Code. now rewrite E. }
  unfold includes_code. cbn [existsb].
  rewrite !E by (simpl; tauto). reflexivity.
Qed.

(** With a prefix of two characters or more the backspace branch never
    takes the character before the caret for the prefix: unless that
    character is the separator or [-], the handler leaves the key to
    the browser. *)
Lemma backspace_long_prefix (el : CustomInputElement) :
  let sel := match selectionEnd el with Some n => Z.of_nat n | None => 0 end in
  (2 <= String.length (prefix (options el)))%nat ->
  slice (value el) (sel - 1) sel <> separator (options el) ->
  slice (value el) (sel - 1) sel <> "-" ->
  backspace el = (el, []).
Proof.
  intros sel Long Sep Minus. unfold backspace. fold sel.
  apply String.eqb_neq in Sep, Minus. rewrite Sep.
  unfold includes_string, existsb. rewrite Minus.
  rewrite eqb_length_differs; [reflexivity|].
  assert (0 <= sel) by (unfold sel; destruct (selectionEnd el); lia).
  pose proof (character_before_caret_short (value el) sel). lia.
Qed.

End KeydownGaps.

(** [replace] removes the occurrence of the pattern that no other
    occurrence precedes. *)
Lemma prefix_app (pat s : string) : String.prefix pat (pat ++ s)%string = true.
Proof.
  induction pat as [|c pat IH]; simpl; [now destruct s|].
  destruct (ascii_dec c c) as [_|N]; [exact IH | now elim N].
Qed.

Lemma drop_app (pat s : string) : drop (String.length pat) (pat ++ s)%string = s.
Proof.
  induction pat as [|c pat IH]; simpl; [reflexivity | exact IH].
Qed.

Lemma replace_equation (pat repl s : string) :
  replace pat repl s
  = if String.prefix pat s then (repl ++ drop (String.length pat) s)%string
    else match s with
         | EmptyString => EmptyString
         | String c s' => String c (replace pat repl s')
         end.
Proof. destruct s; reflexivity. Qed.

Lemma replace_first_occurrence (pat before rest : string) :
  (forall k, (k < String.length before)%nat ->
             String.prefix pat (drop k (before ++ pat ++ rest)%string) = false) ->
  replace pat "" (before ++ pat ++ rest)%string = (before ++ rest)%string.
Proof.
  induction before as [|c before IH]; intros Free.
  - cbn [append]. now rewrite replace_equation, prefix_app, drop_app.
  - rewrite replace_equation.
    pose proof (Free 0%nat) as F0. cbn [drop] in F0.
    rewrite F0 by (simpl; lia).
    cbn [append]. f_equal. apply IH. intros k Lt.
    apply (Free (S k)). simpl. lia.
Qed.

(** C2.  The [-] key with [min = 0]: the keydown of the numeric keypad
    (key code 109) is suppressed, the keydown of the main row (key code
    189, key ["-"]) is not: the handler returns without calling
    [preventDefault]. *)
Theorem main_row_minus_not_suppressed :
  let el := Samples.field (Samples.with_bounds (Some zero) None Samples.plain)
                          "12" 2 (Some (Str "12")) "12" "12" in
  ge zero zero = true
  /\ key Samples.Minus = "-"
  /\ keydownHandler (H := LiteralHost.host) Samples.Minus el = Returned (el, [])
  /\ keydownHandler (H := LiteralHost.host) Samples.NumpadSubtract el
     = Returned (el, [preventDefault]).
Proof.
  cbv zeta. repeat apply conj; reflexivity.
Qed.

(** C3.  Backspace behind a separator removes the first occurrence, in
    the whole field, of the two characters before the caret.  In
    ["1,234"] with the caret behind the separator that is the pair at the
    caret and the field becomes ["234"]; in ["1,231,234"] with the caret
    behind the second separator the pair ["1,"] at the start of the field
    goes and the field becomes ["231,234"], not ["1,23234"]. *)
Theorem backspace_over_separator_removes_first_occurrence :
  let el1 := Samples.field Samples.plain "1,234" 2 (Some (Str "1,234")) "1,234" "1234" in
  let el2 := Samples.field Samples.plain "1,231,234" 6
                           (Some (Str "1,231,234")) "1,231,234" "1231234" in
  keydownHandler (H := LiteralHost.host) Samples.Backspace el1
  = Returned (set_value "234" el1,
              [preventDefault; setSelectionRange 0 0; setSelectionRange 0 0;
               dispatchEvent (Event "input")])
  /\ slice (value el2) 5 6 = separator (options el2)
  /\ slice (value el2) 4 6 = "1,"
  /\ keydownHandler (H := LiteralHost.host) Samples.Backspace el2
     = Returned (set_value "231,234" el2,
                 [preventDefault; setSelectionRange 4 4; setSelectionRange 4 4;
                  dispatchEvent (Event "input")])
  /\ (slice (value el2) 0 4 ++ slice (value el2) 6 9)%string = "1,23234".
Proof.
  cbv zeta. repeat apply conj; reflexivity.
Qed.

(** C4.  Backspace behind the last character of a prefix: with the
    one-character prefix ["R"] the field is cleared; with the prefix
    ["EUR"] and the caret behind its last character the handler does
    nothing, and the browser deletes that one character. *)
Theorem backspace_after_long_prefix_not_cleared :
  let el1 := Samples.field (Samples.with_prefix "R" Samples.plain)
                           "R1,234" 1 (Some (Str "R1,234")) "R1,234" "1234" in
  let el3 := Samples.field (Samples.with_prefix "EUR" Samples.plain)
                           "EUR1,234" 3 (Some (Str "EUR1,234")) "EUR1,234" "1234" in
  keydownHandler (H := LiteralHost.host) Samples.Backspace el1
  = Returned (set_value "" el1, [preventDefault; dispatchEvent (Event "input")])
  /\ slice (value el3) 2 3 = "R"
  /\ keydownHandler (H := LiteralHost.host) Samples.Backspace el3 = Returned (el3, []).
Proof.
  cbv zeta. repeat apply conj; reflexivity.
Qed.

(** ** [updateValue], [inputHandler] and [blurHandler] *)

Lemma string_truthy_false (s : string) : string_truthy s = false <-> s = "".
Proof.
  destruct s; simpl; split; intros E; try reflexivity; discriminate.
Qed.

Section Caret.

Variable o : Options.

Lemma caret_upper (n pfe : Z) :
  0 <= pfe ->
  len (prefix o) + len (suffix o) <= n ->
  caret o n pfe <= n - len (suffix o).
Proof.
  intros Pos Long. unfold caret, Math_max.
  destruct (string_truthy (suffix o)) eqn:Suf, (string_truthy (prefix o)); try lia;
    apply string_truthy_false in Suf; rewrite Suf in *; unfold len in *; simpl in *; lia.
Qed.

Lemma caret_lower (n pfe : Z) :
  prefix o <> "" -> len (prefix o) <= caret o n pfe.
Proof.
  intros Pre. unfold caret, Math_max.
  destruct (string_truthy (prefix o)) eqn:T; [lia|].
  now apply string_truthy_false in T.
Qed.

End Caret.

Section Handlers.

Context {NF : NumberFormat} {H : Host}.

Lemma updateValue_skipped (el : CustomInputElement) (emit clean : bool) :
  strict_eq (oldValue el) (Some (Str (value el))) = true ->
  updateValue el None emit false clean = (el, []).
Proof.
  intros E. unfold updateValue. now rewrite E.
Qed.

Lemma updateValue_done (el : CustomInputElement) (emit force clean : bool) :
  force || negb (strict_eq (oldValue el) (Some (Str (value el)))) = true ->
  updateValue el None emit force clean
  = (set_value (fst (recomputed el clean))
               (set_masked (fst (recomputed el clean)) (snd (recomputed el clean)) el),
     if emit then [dispatchEvent FacadeInputEvent] else []).
Proof.
  intros E. unfold updateValue, recomputed. rewrite E.
  destruct (clamp _ _ _ _ _) as [m u]. simpl.
  destruct (String.eqb_spec (value el) m) as [V|V]; [|reflexivity].
  f_equal. unfold set_value, set_masked. simpl. now rewrite V.
Qed.

(** The element and the trace of an input edit, spelled out. *)
Lemma inputHandler_edit (event : CustomInputEvent) (target : CustomInputElement) :
  is_facade event = false ->
  let target1 := fst (updateValue target None false false false) in
  let position := caret (options target) (len (value target1))
                        (positionFromEnd_of target) in
  inputHandler event target
  = match selectionEnd target with
    | None => (target1, [stopPropagation; throws "InvalidStateError"], None)
    | Some _ =>
        if negb (strict_eq (oldValue target) (Some (Str (value target1))))
        then (set_oldValue (masked target) target1,
              [stopPropagation; setSelectionRange position position;
               setSelectionRange position position;
               dispatchEvent FacadeInputEvent], None)
        else (target1,
              [stopPropagation; setSelectionRange position position;
               setSelectionRange position position], None)
    end.
Proof.
  intros F. unfold inputHandler. rewrite F.
  destruct (strict_eq (oldValue target) (Some (Str (value target)))) eqn:E.
  - rewrite (updateValue_skipped _ _ _ E). cbn [fst]. unfold updateCursor.
    destruct (selectionEnd target); [|reflexivity].
    cbn [thrown existsb orb app]. destruct (negb _); reflexivity.
  - rewrite updateValue_done by (rewrite E; reflexivity). cbn [fst].
    unfold updateCursor. cbn [selectionEnd set_value set_masked].
    destruct (selectionEnd target); [|reflexivity].
    cbn [thrown existsb orb app]. destruct (negb _); reflexivity.
Qed.

Lemma inputHandler_value (event : CustomInputEvent) (target : CustomInputElement) :
  is_facade event = false ->
  value (element_of (inputHandler event target))
  = value (fst (updateValue target None false false false)).
Proof.
  intros F. rewrite (inputHandler_edit event target F).
  destruct (selectionEnd target); [destruct (negb _)|]; reflexivity.
Qed.

(** An input edit on an input without selection ends in [updateCursor]:
    the text has been formatted, [oldValue] is not assigned and nothing
    is dispatched. *)
Lemma input_edit_without_selection (event : CustomInputEvent)
      (target : CustomInputElement) :
  is_facade event = false ->
  selectionEnd target = None ->
  inputHandler event target
  = (fst (updateValue target None false false false),
     [stopPropagation; throws "InvalidStateError"], None).
Proof.
  intros F N. rewrite (inputHandler_edit event target F). now rewrite N.
Qed.

Lemma blurHandler_commit (event : CustomInputEvent) (target : CustomInputElement) :
  is_facade event = false ->
  let target1 := set_value (fst (recomputed target true))
                   (set_masked (fst (recomputed target true))
                               (snd (recomputed target true)) target) in
  blurHandler event target
  = if negb (strict_eq (oldValue target) (Some (Str (value target1))))
    then (set_oldValue (masked target) target1,
          [dispatchEvent FacadeInputEvent; dispatchEvent FacadeChangeEvent], None)
    else (target1, [dispatchEvent FacadeInputEvent], None).
Proof.
  intros F. unfold blurHandler. rewrite F.
  rewrite updateValue_done by reflexivity.
  destruct (negb _); reflexivity.
Qed.

(** What both handlers do with an event that carries the marker. *)
Lemma marked_event_returns (event : CustomInputEvent) (target : CustomInputElement) :
  is_facade event = true ->
  inputHandler event target = (target, [], Some false)
  /\ blurHandler event target = (target, [], Some false).
Proof.
  intros F. unfold inputHandler, blurHandler. now rewrite F.
Qed.

(** C9.  An input or blur event that carries the engine's own marker
    ([detail.facade] true) makes its handler return [false] at once:
    the element is the one it was given and nothing is dispatched,
    prevented or moved. *)
Theorem facade_event_short_circuits
        (event : CustomInputEvent) (target : CustomInputElement) :
  is_facade event = true ->
  inputHandler event target = (target, [], Some false)
  /\ blurHandler event target = (target, [], Some false).
Proof.
  intros F. unfold inputHandler, blurHandler. now rewrite F.
Qed.

(** Every event the input and blur handlers dispatch carries the
    marker, so that handing it back to either handler does nothing. *)
Lemma dispatched_events_are_facade
      (event : CustomInputEvent) (target : CustomInputElement) (e : CustomInputEvent) :
  In (dispatchEvent e) (effects_of (inputHandler event target))
  \/ In (dispatchEvent e) (effects_of (blurHandler event target)) ->
  is_facade e = true.
Proof.
  destruct (is_facade event) eqn:F.
  - destruct (marked_event_returns event target F) as [-> ->].
    simpl. tauto.
  - intros [I | I].
    + rewrite (inputHandler_edit event target F) in I.
      destruct (selectionEnd target); [destruct (negb _)|];
        unfold effects_of in I; cbn [fst snd In] in I;
        repeat (destruct I as [I|I]; try discriminate I;
                try (injection I as <-; reflexivity));
        destruct I.
    + rewrite (blurHandler_commit event target F) in I.
      destruct (negb _); unfold effects_of in I; cbn [fst snd In] in I;
        repeat (destruct I as [I|I]; try discriminate I;
                try (injection I as <-; reflexivity));
        destruct I.
Qed.

End Handlers.

(** C8.  The caret of an input edit with an empty prefix.  The field
    showed ["1,234"] with the caret at its start and the Delete key has
    removed the [1]: [positionFromEnd] is 4, the new text ["234"] has
    three characters, the floor against the prefix is skipped because the
    prefix is empty, and [setSelectionRange] is given [-1], left of the
    text.  With the suffix [" USD"] the same edit gives [-1] as well.
    With the prefix ["R"] and the caret behind it the floor applies and
    the caret is put behind the prefix. *)
Theorem caret_left_of_text_with_empty_prefix :
  let edit o v sel old :=
    inputHandler (NF := SpecNumberFormat) (H := LiteralHost.host) (Event "input")
                 (Samples.field o v sel (Some (Str old)) old "1234") in
  let usd := Samples.with_suffix " USD" Samples.plain in
  let r := Samples.with_prefix "R" Samples.plain in
  (value (element_of (edit Samples.plain ",234" 0%nat "1,234")) = "234"
   /\ effects_of (edit Samples.plain ",234" 0%nat "1,234")
      = [stopPropagation; setSelectionRange (-1) (-1); setSelectionRange (-1) (-1);
         dispatchEvent FacadeInputEvent])
  /\ (value (element_of (edit usd ",234 USD" 0%nat "1,234 USD")) = "234 USD"
      /\ effects_of (edit usd ",234 USD" 0%nat "1,234 USD")
         = [stopPropagation; setSelectionRange (-1) (-1); setSelectionRange (-1) (-1);
            dispatchEvent FacadeInputEvent])
  /\ (value (element_of (edit r "R,234" 1%nat "R1,234")) = "R234"
      /\ effects_of (edit r "R,234" 1%nat "R1,234")
         = [stopPropagation; setSelectionRange 1 1; setSelectionRange 1 1;
            dispatchEvent FacadeInputEvent]).
Proof.
  cbv zeta. repeat apply conj; reflexivity.
Qed.

Section InputEdits.

Context {NF : NumberFormat} {H : Host}.

Lemma recomputed_while_typing (el : CustomInputElement) :
  recomputed el false
  = (format (options el) false (Str (value el)),
     unformat (options el) (negb (reverseFill (options el))) (Str (value el))).
Proof. reflexivity. Qed.

(** An input edit that dispatches its notification stores in
    [oldValue] the masked value the element had before the edit, while
    the masked value computed by the edit is the new text of the
    field. *)
Lemma accepted_input_edit_stores_previous_masked
      (event : CustomInputEvent) (target : CustomInputElement) (e : CustomInputEvent) :
  let r := inputHandler event target in
  In (dispatchEvent e) (effects_of r) ->
  oldValue (element_of r) = masked target
  /\ masked (element_of r) = Some (Str (value (element_of r))).
Proof.
  intros r I. subst r.
  destruct (is_facade event) eqn:F.
  - destruct (marked_event_returns event target F) as [E _].
    rewrite E in I. destruct I.
  - rewrite (inputHandler_edit event target F) in *.
    destruct (strict_eq (oldValue target) (Some (Str (value target)))) eqn:E.
    + rewrite (updateValue_skipped _ _ _ E) in *. cbn [fst] in *.
      rewrite E in I. destruct (selectionEnd target); simpl in I;
        intuition discriminate.
    + rewrite updateValue_done in * by (rewrite E; reflexivity). cbn [fst] in *.
      destruct (selectionEnd target); [destruct (negb _)|].
      * split; reflexivity.
      * simpl in I. intuition discriminate.
      * simpl in I. intuition discriminate.
Qed.

End InputEdits.

(** C7.  The field shows ["1"], with [masked] and [oldValue] both ["1"];
    the user types [2].  The edit is accepted: the masked value becomes
    ["12"] and the notification is dispatched, but [oldValue] is given
    the masked value captured before the update, ["1"], and not the
    newly computed ["12"].  The same text handed to the handler once more
    is then notified a second time. *)
Theorem accepted_input_edit_keeps_stale_oldValue :
  let target := Samples.field Samples.plain "12" 2 (Some (Str "1")) "1" "1" in
  let after := Samples.field Samples.plain "12" 2 (Some (Str "1")) "12" "12" in
  inputHandler (NF := SpecNumberFormat) (H := LiteralHost.host) (Event "input") target
  = (after,
     [stopPropagation; setSelectionRange 2 2; setSelectionRange 2 2;
      dispatchEvent FacadeInputEvent], None)
  /\ oldValue after <> masked after
  /\ In (dispatchEvent FacadeInputEvent)
        (effects_of (inputHandler (NF := SpecNumberFormat) (H := LiteralHost.host)
                                  (Event "input") after)).
Proof.
  repeat split.
  - discriminate.
  - vm_compute. tauto.
Qed.

(** C6.  The comparison with [oldValue] does not tell whether the text
    changed, because [oldValue] is a step behind.  The field shows ["1"]
    and the user types [2]: the edit is notified and leaves [oldValue] at
    ["1"] beside the masked value ["12"].  The handler run once more on
    the same text computes the same masked value ["12"] and dispatches
    the notification a second time.  And when instead the user deletes
    the [2], the raw text ["1"] equals the stale [oldValue]: nothing is
    recomputed, [masked] stays ["12"] under the text ["1"], and the
    visible change is not notified. *)
Theorem identical_edit_is_notified_again :
  let handle := inputHandler (NF := SpecNumberFormat) (H := LiteralHost.host)
                             (Event "input") in
  let once := handle (Samples.field Samples.plain "12" 2 (Some (Str "1")) "1" "1") in
  let twice := handle (element_of once) in
  let deleted := handle (Samples.field Samples.plain "1" 1 (Some (Str "1")) "12" "12") in
  element_of once = Samples.field Samples.plain "12" 2 (Some (Str "1")) "12" "12"
  /\ In (dispatchEvent FacadeInputEvent) (effects_of once)
  /\ value (element_of twice) = value (element_of once)
  /\ masked (element_of twice) = masked (element_of once)
  /\ In (dispatchEvent FacadeInputEvent) (effects_of twice)
  /\ value (element_of deleted) = "1"
  /\ masked (element_of deleted) = Some (Str "12")
  /\ effects_of deleted
     = [stopPropagation; setSelectionRange 1 1; setSelectionRange 1 1].
Proof.
  cbv zeta. repeat apply conj; try reflexivity.
  - vm_compute. tauto.
  - vm_compute. tauto.
Qed.

(** The sample states above arise from a freshly mounted, empty field:
    typing [1] leaves [oldValue] behind at [""]; typing a letter that the
    formatter drops then brings it to ["1"]. *)
Lemma sample_states_reachable :
  let fresh := Samples.field Samples.plain "1" 1 None "" "" in
  let s1 := Samples.field Samples.plain "1" 1 (Some (Str "")) "1" "1" in
  let s2 := Samples.field Samples.plain "1" 2 (Some (Str "1")) "1" "1" in
  element_of (inputHandler (NF := SpecNumberFormat) (H := LiteralHost.host)
                           (Event "input") fresh) = s1
  /\ element_of (inputHandler (NF := SpecNumberFormat) (H := LiteralHost.host)
                              (Event "input")
                              (Samples.field Samples.plain "1a" 2 (oldValue s1) "1" "1"))
     = s2.
Proof.
  split; reflexivity.
Qed.

(** ** Bounds at commit *)

Section Commit.

Context {NF : NumberFormat} {H : Host}.

(** The range check with a bound that is a number other than zero. *)
Lemma clamp_above_max (o : Options) (fl : bool) (m u : string) (mx : number) :
  max o = Some mx ->
  number_truthy mx = true ->
  gt (Number u) mx = true ->
  clamp o fl true m u = (format o fl (Num mx), unformat o fl (Num mx)).
Proof.
  intros Max T G. unfold clamp, above_max. now rewrite Max, T, G.
Qed.

Lemma clamp_below_min (o : Options) (fl : bool) (m u : string) (mn : number) :
  above_max o (Number u) = None ->
  min o = Some mn ->
  number_truthy mn = true ->
  lt (Number u) mn = true ->
  clamp o fl true m u = (format o fl (Num mn), unformat o fl (Num mn)).
Proof.
  intros A Min T L. unfold clamp, below_min. now rewrite A, Min, T, L.
Qed.

(** A bound of zero is falsy and is skipped like one that is unset. *)
Lemma clamp_zero_bounds (o : Options) (fl : bool) (m u : string) :
  (max o = None \/ exists e, max o = Some (Dec 0 e)) ->
  (min o = None \/ exists e, min o = Some (Dec 0 e)) ->
  clamp o fl true m u = (m, u).
Proof.
  intros Max Min. unfold clamp, above_max, below_min.
  destruct Max as [-> | [e ->]], Min as [-> | [e' ->]]; reflexivity.
Qed.

(** On blur the text above a non-zero [max] is replaced by the
    formatted bound. *)
Lemma blur_clamps_to_max (event : CustomInputEvent) (target : CustomInputElement)
      (mx : number) :
  let o := options target in
  let fl := negb (reverseFill o) in
  is_facade event = false ->
  max o = Some mx ->
  number_truthy mx = true ->
  gt (Number (unformat o fl (Str (value target)))) mx = true ->
  let el := element_of (blurHandler event target) in
  value el = format o fl (Num mx)
  /\ masked el = Some (Str (format o fl (Num mx)))
  /\ unmaskedValue el = Some (Str (unformat o fl (Num mx))).
Proof.
  intros o fl F Max T G el. subst el.
  rewrite (blurHandler_commit event target F).
  unfold recomputed. fold o. fold fl.
  rewrite (clamp_above_max o fl _ _ mx Max T G). cbn [fst snd].
  destruct (strict_eq _ _); repeat split.
Qed.

End Commit.

(** C1.  Blur with a bound of zero.  With [max = 0] the text ["5"],
    whose number is above the bound, is left as it is, and with [min = 0]
    so is the text ["-5"]: the range check takes a bound of zero for an
    unset one.  With [max = 3] the same text ["5"] is replaced by ["3"]. *)
Theorem blur_ignores_zero_bound :
  let at_most mx := Samples.field (Samples.with_bounds None (Some mx) Samples.plain)
                                  "5" 1 (Some (Str "5")) "5" "5" in
  let at_least_zero := Samples.field (Samples.with_bounds (Some zero) None Samples.plain)
                                     "-5" 2 (Some (Str "-5")) "-5" "-5" in
  let blur := blurHandler (NF := SpecNumberFormat) (H := LiteralHost.host) (Event "blur") in
  gt (LiteralHost.Number_decimal "5") zero = true
  /\ blur (at_most zero) = (at_most zero, [dispatchEvent FacadeInputEvent], None)
  /\ lt (LiteralHost.Number_decimal "-5") zero = true
  /\ blur at_least_zero = (at_least_zero, [dispatchEvent FacadeInputEvent], None)
  /\ blur (at_most (of_Z 3))
     = (Samples.field (Samples.with_bounds None (Some (of_Z 3)) Samples.plain)
                      "3" 1 (Some (Str "5")) "3" "3",
        [dispatchEvent FacadeInputEvent; dispatchEvent FacadeChangeEvent], None).
Proof.
  cbv zeta. repeat apply conj; reflexivity.
Qed.

(** ** The formatter of the specification *)

Module FormatterFacts.
Import NumberFormatSpec.





































Section RoundTrip.

Variable collapse : Options -> chars -> chars.
Variable o : Options.
Hypothesis WF : well_formed o = true.
Hypothesis LTR : reverseFill o = false.







End RoundTrip.

End FormatterFacts.

(** The examples of the specification, section 8. *)
Example format_groups_by_three :
  NumberFormatSpec.format Samples.plain (Str "1234567") = "1,234,567"
  /\ NumberFormatSpec.format (Samples.with_prefix "$" Samples.plain) (Str "1234567")
     = "$1,234,567".
Proof. split; reflexivity. Qed.

Example format_two_fraction_digits :
  NumberFormatSpec.format Samples.cents (Str "3") = "3.00"
  /\ NumberFormatSpec.format Samples.cents (Str "3.005") = "3.01".
Proof. split; reflexivity. Qed.



(** In reverse-fill mode the round trip changes the value: [1234.5] is
    shown as ["$1,234.5 USD"], whose digits read cents-first are
    [123.45]; and [12] is shown as ["$12 USD"], read cents-first as
    [0.12]. *)
Example format_then_cents_first :
  NumberFormatSpec.well_formed Samples.dollars_cents_first = true
  /\ NumberFormatSpec.format Samples.dollars_cents_first (Str "1234.5") = "$1,234.5 USD"
  /\ NumberFormatSpec.unformat NumberFormatSpec.cents_first Samples.dollars_cents_first
       (Str "$1,234.5 USD") = "123.45"
  /\ NumberFormatSpec.format Samples.dollars_cents_first (Str "123.45") = "$123.45 USD"
  /\ NumberFormatSpec.format Samples.dollars_cents_first (Str "12") = "$12 USD"
  /\ NumberFormatSpec.unformat NumberFormatSpec.cents_first Samples.dollars_cents_first
       (Str "$12 USD") = "0.12".
Proof. repeat apply conj; reflexivity. Qed.


Lemma facade_event_short_circuits_witness :
  let target := Samples.field Samples.plain "1,234" 5 (Some (Str "1,234")) "1,234" "1234" in
  inputHandler (NF := SpecNumberFormat) (H := LiteralHost.host) FacadeInputEvent target
  = (target, [], Some false)
  /\ blurHandler (NF := SpecNumberFormat) (H := LiteralHost.host) FacadeInputEvent target
     = (target, [], Some false).
Proof.
  intros target.
  apply (facade_event_short_circuits (NF := SpecNumberFormat) (H := LiteralHost.host)
           FacadeInputEvent target).
  reflexivity.
Defined.

(** * Further properties of [core.ts] *)

(** ** [updateValue] *)

Section UpdateValue.

Context {NF : NumberFormat} {H : Host}.

Lemma updateValue_equation (el : CustomInputElement) (vnode : option Input)
      (emit force clean : bool) :
  updateValue el vnode emit force clean
  = let o := options el in
    let fl := negb (reverseFill o) in
    let current := currentValue_of el vnode in
    if force || negb (strict_eq (oldValue el) (Some current)) then
      let mu := clamp o fl clean (format o (clean && fl) current)
                      (unformat o fl current) in
      (set_value (fst mu) (set_masked (fst mu) (snd mu) el),
       if emit then [dispatchEvent FacadeInputEvent] else [])
    else (el, []).
Proof.
  unfold updateValue, currentValue_of. cbv zeta.
  destruct (_ || _); [|reflexivity].
  destruct (clamp _ _ _ _ _) as [m u]. cbn [fst snd].
  destruct (String.eqb_spec (value (set_masked m u el)) m) as [V|V]; [|reflexivity].
  f_equal. unfold set_value, set_masked in *. cbn in *. now rewrite V.
Qed.

(** X1.  [updateValue] never writes [options] or [oldValue]: whatever
    its arguments, both are the same before and after the call.  Only the
    handlers assign [oldValue]. *)
Theorem updateValue_keeps_options_and_oldValue
        (el : CustomInputElement) (vnode : option Input) (emit force clean : bool) :
  options (fst (updateValue el vnode emit force clean)) = options el
  /\ oldValue (fst (updateValue el vnode emit force clean)) = oldValue el.
Proof.
  rewrite updateValue_equation. cbv zeta.
  destruct (_ || _); split; reflexivity.
Qed.

(** X2.  When [updateValue] recomputes (it is forced, or the current
    value differs from [oldValue]) it leaves the text of the field and
    [masked] equal, and dispatches the marked input event exactly when
    [emit] is set. *)
Theorem updateValue_sets_text_and_masked_alike
        (el : CustomInputElement) (vnode : option Input) (emit force clean : bool) :
  force || negb (strict_eq (oldValue el) (Some (currentValue_of el vnode))) = true ->
  masked (fst (updateValue el vnode emit force clean))
  = Some (Str (value (fst (updateValue el vnode emit force clean))))
  /\ snd (updateValue el vnode emit force clean)
     = if emit then [dispatchEvent FacadeInputEvent] else [].
Proof.
  intros Run. rewrite updateValue_equation. cbv zeta. rewrite Run.
  split; reflexivity.
Qed.

(** X3.  A vnode value that is falsy (the number 0, NaN, the empty
    string) is passed over: [updateValue] then formats the text of the
    element, as it does without a vnode. *)
Theorem updateValue_passes_over_falsy_vnode_value
        (el : CustomInputElement) (v : Input) (emit force clean : bool) :
  truthy v = false ->
  updateValue el (Some v) emit force clean = updateValue el None emit force clean.
Proof.
  intros Falsy. rewrite !updateValue_equation.
  unfold currentValue_of. now rewrite Falsy.
Qed.

End UpdateValue.

Lemma updateValue_sets_text_and_masked_alike_witness :
  let el := Samples.field Samples.plain "1234" 4 (Some (Str "123")) "123" "123" in
  let r := updateValue (NF := SpecNumberFormat) (H := LiteralHost.host)
                       el None true false false in
  value (fst r) = "1,234" /\ masked (fst r) = Some (Str (value (fst r))).
Proof.
  intros el r. split; [reflexivity|].
  apply (updateValue_sets_text_and_masked_alike (NF := SpecNumberFormat)
           (H := LiteralHost.host) el None true false false).
  reflexivity.
Defined.

Lemma updateValue_passes_over_falsy_vnode_value_witness :
  let el := Samples.field Samples.plain "1234" 4 (Some (Str "123")) "123" "123" in
  value (fst (updateValue (NF := SpecNumberFormat) (H := LiteralHost.host)
                          el (Some (Num zero)) false true false)) = "1,234"
  /\ updateValue (NF := SpecNumberFormat) (H := LiteralHost.host)
                 el (Some (Num zero)) false true false
     = updateValue (NF := SpecNumberFormat) (H := LiteralHost.host)
                   el None false true false.
Proof.
  intros el. split; [reflexivity|].
  apply (updateValue_passes_over_falsy_vnode_value (NF := SpecNumberFormat)
           (H := LiteralHost.host) el (Num zero) false true false).
  reflexivity.
Defined.

(** ** [inputHandler] *)

Section InputHandler.

Context {NF : NumberFormat} {H : Host}.

(** X4.  An input edit never applies the bounds: when the raw text
    differs from [oldValue], the text of the field and [masked] become
    the formatted raw text and [unmaskedValue] the unformatted raw text,
    whatever [min] and [max] are. *)
Theorem input_edit_never_clamps
        (event : CustomInputEvent) (target : CustomInputElement) :
  let o := options target in
  let el := element_of (inputHandler event target) in
  is_facade event = false ->
  strict_eq (oldValue target) (Some (Str (value target))) = false ->
  value el = format o false (Str (value target))
  /\ masked el = Some (Str (format o false (Str (value target))))
  /\ unmaskedValue el
     = Some (Str (unformat o (negb (reverseFill o)) (Str (value target)))).
Proof.
  intros o el F Changed. subst el.
  rewrite (inputHandler_edit event target F).
  rewrite updateValue_done by (rewrite Changed; reflexivity).
  rewrite recomputed_while_typing. cbn [fst snd].
  destruct (selectionEnd target); [destruct (negb _)|]; repeat split.
Qed.

(** X5.  The input handler dispatches an event exactly when the event
    it handles is not marked, the input has a selection (so that
    [updateCursor] does not throw) and the text of the field after the
    edit differs from the [oldValue] it found; the event is then the
    marked input event.  On an input without selection the handler ends
    in [updateCursor] and never dispatches. *)
Theorem input_notifies_iff_text_differs
        (event : CustomInputEvent) (target : CustomInputElement) (e : CustomInputEvent) :
  let r := inputHandler event target in
  In (dispatchEvent e) (effects_of r)
  <-> is_facade event = false
      /\ selectionEnd target <> None
      /\ e = FacadeInputEvent
      /\ strict_eq (oldValue target) (Some (Str (value (element_of r)))) = false.
Proof.
  intros r. subst r.
  destruct (is_facade event) eqn:F.
  - destruct (marked_event_returns event target F) as [-> _].
    split; [intros [] | intros [D _]; discriminate D].
  - rewrite (inputHandler_value event target F).
    rewrite (inputHandler_edit event target F).
    set (target1 := fst (updateValue target None false false false)).
    destruct (selectionEnd target) as [sel|].
    + destruct (strict_eq (oldValue target) (Some (Str (value target1)))) eqn:E;
        unfold effects_of; cbn [negb fst snd In]; split.
      * intros I. repeat (destruct I as [I|I]; try discriminate I). destruct I.
      * intros (_ & _ & _ & D). discriminate D.
      * intros I. repeat (destruct I as [I|I]; try discriminate I);
          [|destruct I].
        injection I as <-. repeat split. discriminate.
      * intros (_ & _ & -> & _). tauto.
    + unfold effects_of; cbn [fst snd In]; split.
      * intros I. repeat (destruct I as [I|I]; try discriminate I). destruct I.
      * intros (_ & N & _). now elim N.
Qed.


(** X7.  The input and the blur handler never write [options], and the
    [oldValue] they leave is the one they found or the [masked] value
    they found. *)
Theorem handlers_keep_options
        (event : CustomInputEvent) (target : CustomInputElement) :
  let i := element_of (inputHandler event target) in
  let b := element_of (blurHandler event target) in
  (options i = options target
   /\ (oldValue i = oldValue target \/ oldValue i = masked target))
  /\ (options b = options target
      /\ (oldValue b = oldValue target \/ oldValue b = masked target)).
Proof.
  intros i b. subst i b.
  destruct (is_facade event) eqn:F.
  - destruct (marked_event_returns event target F) as [-> ->].
    unfold element_of. cbn [fst]. tauto.
  - split.
    + rewrite (inputHandler_edit event target F).
      rewrite updateValue_equation. cbv zeta.
      destruct (selectionEnd target), (false || _);
        try match goal with
            | |- context [if negb ?c then _ else _] => destruct c
            end; unfold element_of; cbn [negb fst]; cbn [options oldValue set_oldValue
                                                          set_value set_masked]; tauto.
    + rewrite (blurHandler_commit event target F).
      match goal with
      | |- context [if negb ?c then _ else _] => destruct c
      end; unfold element_of; cbn [negb fst]; cbn [options oldValue set_oldValue
                                                    set_value set_masked]; tauto.
Qed.

End InputHandler.

Lemma input_edit_never_clamps_witness :
  let target := Samples.field (Samples.with_bounds None (Some (of_Z 100)) Samples.plain)
                              "150" 3 (Some (Str "15")) "15" "15" in
  let el := element_of (inputHandler (NF := SpecNumberFormat) (H := LiteralHost.host)
                                     (Event "input") target) in
  value el = "150" /\ masked el = Some (Str "150") /\ unmaskedValue el = Some (Str "150").
Proof.
  intros target el.
  apply (input_edit_never_clamps (NF := SpecNumberFormat) (H := LiteralHost.host)
           (Event "input") target); reflexivity.
Defined.


(** ** Notifications *)

Section Notifications.

Context {NF : NumberFormat} {H : Host}.

(** X8.  No notification loop: an event dispatched by the input or the
    blur handler, handed to either handler on any element, is returned
    at once with the element untouched and nothing dispatched. *)
Theorem dispatched_event_is_not_reprocessed
        (event : CustomInputEvent) (target : CustomInputElement)
        (e : CustomInputEvent) (el : CustomInputElement) :
  In (dispatchEvent e) (effects_of (inputHandler event target))
  \/ In (dispatchEvent e) (effects_of (blurHandler event target)) ->
  inputHandler e el = (el, [], Some false)
  /\ blurHandler e el = (el, [], Some false).
Proof.
  intros I. apply marked_event_returns.
  exact (dispatched_events_are_facade event target e I).
Qed.

(** X9.  Blur always recomputes and always notifies: for an event that
    is not marked, whatever [oldValue] is, the text of the field and
    [masked] are equal afterwards, the marked input event is dispatched,
    and the marked change event follows it exactly when the text differs
    from the [oldValue] found. *)
Theorem blur_always_recomputes_and_notifies
        (event : CustomInputEvent) (target : CustomInputElement) :
  let r := blurHandler event target in
  is_facade event = false ->
  value (element_of r) = fst (recomputed target true)
  /\ masked (element_of r) = Some (Str (value (element_of r)))
  /\ effects_of r
     = dispatchEvent FacadeInputEvent
         :: (if strict_eq (oldValue target) (Some (Str (value (element_of r))))
             then [] else [dispatchEvent FacadeChangeEvent]).
Proof.
  intros r F. subst r.
  rewrite (blurHandler_commit event target F).
  set (m := fst (recomputed target true)).
  set (u := snd (recomputed target true)).
  change (value (set_value m (set_masked m u target))) with m.
  destruct (strict_eq (oldValue target) (Some (Str m))) eqn:E;
    unfold element_of, effects_of; cbn [negb fst snd];
    cbn [value masked set_oldValue set_value set_masked];
    rewrite E; repeat split.
Qed.

(** X10.  The order of the range check on blur: a text whose number is
    above a [max] other than zero is replaced by the formatted [max],
    whatever [min] is; a text that is not above [max] and whose number is
    below a [min] other than zero is replaced by the formatted [min]. *)
Theorem blur_checks_max_before_min
        (event : CustomInputEvent) (target : CustomInputElement) (bound : number) :
  let o := options target in
  let fl := negb (reverseFill o) in
  let x := Number (unformat o fl (Str (value target))) in
  let el := element_of (blurHandler event target) in
  is_facade event = false ->
  number_truthy bound = true ->
  (max o = Some bound /\ gt x bound = true)
  \/ (above_max o x = None /\ min o = Some bound /\ lt x bound = true) ->
  value el = format o fl (Num bound)
  /\ masked el = Some (Str (format o fl (Num bound)))
  /\ unmaskedValue el = Some (Str (unformat o fl (Num bound))).
Proof.
  intros o fl x el F T Case. subst el.
  rewrite (blurHandler_commit event target F).
  unfold recomputed. fold o. fold fl. fold x.
  assert (C : clamp o fl true (format o (true && fl) (Str (value target)))
                    (unformat o fl (Str (value target)))
              = (format o fl (Num bound), unformat o fl (Num bound))).
  { destruct Case as [[Max G] | (A & Min & L)].
    - now apply clamp_above_max.
    - now apply clamp_below_min. }
  rewrite C. cbn [fst snd].
  match goal with
  | |- context [if negb ?c then _ else _] => destruct c
  end; repeat split.
Qed.

(** X11.  A text whose number is NaN is never clamped: on blur the
    field gets the formatted text and [unmaskedValue] the unformatted
    text, whatever the bounds are. *)
Theorem blur_leaves_nan_unclamped
        (event : CustomInputEvent) (target : CustomInputElement) :
  let o := options target in
  let fl := negb (reverseFill o) in
  let el := element_of (blurHandler event target) in
  is_facade event = false ->
  Number (unformat o fl (Str (value target))) = NaN ->
  value el = format o fl (Str (value target))
  /\ unmaskedValue el = Some (Str (unformat o fl (Str (value target)))).
Proof.
  intros o fl el F N. subst el.
  rewrite (blurHandler_commit event target F).
  unfold recomputed, clamp, above_max, below_min. fold o. fold fl. rewrite N.
  assert (G : forall b, gt NaN b = false) by (intros []; reflexivity).
  assert (L : forall b, lt NaN b = false) by (intros []; reflexivity).
  destruct (max o) as [mx|], (min o) as [mn|];
    rewrite ?G, ?L, ?andb_false_r; cbn [fst snd andb];
    match goal with
    | |- context [if negb ?c then _ else _] => destruct c
    end; split; reflexivity.
Qed.

End Notifications.

(** ** More on strings *)

Lemma length_append (a b : string) :
  String.length (a ++ b)%string = (String.length a + String.length b)%nat.
Proof.
  induction a as [|c a IH]; simpl; [reflexivity | now rewrite IH].
Qed.

Lemma prefix_empty (s : string) : String.prefix "" s = true.
Proof. now destruct s. Qed.

Lemma prefix_length (pat s : string) :
  String.prefix pat s = true -> (String.length pat <= String.length s)%nat.
Proof.
  revert pat; induction s as [|c s IH]; intros [|a pat]; simpl; try lia; try discriminate.
  destruct (ascii_dec a c); [|discriminate].
  intros P. specialize (IH pat P). lia.
Qed.

Lemma length_drop (n : nat) (s : string) :
  String.length (drop n s) = (String.length s - n)%nat.
Proof.
  revert n; induction s as [|c s IH]; intros [|n]; simpl; auto.
Qed.

Lemma prefix_substring (m : nat) (s : string) :
  String.prefix (substring 0 m s) s = true.
Proof.
  revert m; induction s as [|c s IH]; intros [|m]; simpl; try reflexivity.
  destruct (ascii_dec c c) as [_|N]; [apply IH | now elim N].
Qed.

Lemma includes_equation (pat s : string) :
  includes pat s
  = String.prefix pat s
    || match s with
       | EmptyString => false
       | String _ s' => includes pat s'
       end.
Proof. destruct s; reflexivity. Qed.

(** A slice of a text occurs in the text. *)
Lemma includes_substring (n m : nat) (s : string) :
  includes (substring n m s) s = true.
Proof.
  revert n; induction s as [|c s IH]; intros n.
  - rewrite includes_equation.
    replace (substring n m "") with "" by (destruct n, m; reflexivity).
    reflexivity.
  - rewrite includes_equation. destruct n as [|n].
    + now rewrite prefix_substring.
    + change (substring (S n) m (String c s)) with (substring n m s).
      now rewrite IH, orb_true_r.
Qed.

(** Replacing a pattern that occurs by the empty string shortens the
    text by the length of the pattern. *)
Lemma replace_length (pat s : string) :
  includes pat s = true ->
  (String.length (replace pat "" s) + String.length pat = String.length s)%nat.
Proof.
  induction s as [|c s IH]; rewrite includes_equation, replace_equation;
    destruct (String.prefix pat _) eqn:P; cbn [orb]; intros I.
  - apply prefix_length in P. cbn [append]. rewrite length_drop. lia.
  - discriminate I.
  - apply prefix_length in P. cbn [append]. rewrite length_drop. lia.
  - specialize (IH I). simpl. lia.
Qed.

Lemma substring_length (n m : nat) (s : string) :
  (n + m <= String.length s)%nat -> String.length (substring n m s) = m.
Proof.
  revert n m; induction s as [|c s IH]; intros [|n] [|m]; simpl; intros L;
    try reflexivity; try lia.
  - f_equal. apply IH. lia.
  - apply (IH n 0%nat). lia.
  - apply (IH n (S m)). lia.
Qed.

(** [s.slice(a, b)] with both indices inside the text. *)
Lemma slice_inside (s : string) (a b : Z) :
  0 <= a <= b -> b <= len s ->
  slice s a b = substring (Z.to_nat a) (Z.to_nat (b - a)) s.
Proof.
  intros A B. unfold slice.
  destruct (Z.ltb_spec a 0), (Z.ltb_spec b 0); try lia.
  rewrite !Z.min_l by lia. now rewrite Z.max_l by lia.
Qed.

Lemma substring_after (before s : string) (m : nat) :
  substring (String.length before) m (before ++ s)%string = substring 0 m s.
Proof.
  induction before as [|c before IH]; [reflexivity | exact IH].
Qed.

Lemma len_nonneg_of (s : string) : 0 <= len s.
Proof. unfold len. lia. Qed.

Lemma set_value_same (el : CustomInputElement) : set_value (value el) el = el.
Proof. now destruct el. Qed.

(** ** [keydownHandler], key by key *)

Section KeydownTable.

Context {H : Host}.

(** What the backspace branch can do. *)
Lemma backspace_cases (el : CustomInputElement) :
  backspace el = (el, [])
  \/ backspace el = (set_value "" el, [preventDefault; dispatchEvent (Event "input")])
  \/ (exists v p,
        backspace el
        = (set_value v el,
           [preventDefault; setSelectionRange p p; setSelectionRange p p;
            dispatchEvent (Event "input")]))
  \/ exists v,
       backspace el = (set_value v el, [preventDefault; throws "InvalidStateError"]).
Proof.
  unfold backspace.
  destruct (String.eqb _ (separator (options el))).
  - unfold updateCursor. cbn [selectionEnd set_value].
    destruct (selectionEnd el); cbn [thrown existsb orb app].
    + right; right; left. eauto.
    + right; right; right. eauto.
  - destruct (includes_string _ _); auto.
Qed.

(** What the handler can do when it returns. *)
Lemma keydownHandler_cases (event : KeyboardEvent) (el el' : CustomInputElement)
      (effs : list Effect) :
  keydownHandler event el = Returned (el', effs) ->
  (el' = el /\ (effs = [] \/ effs = [preventDefault]))
  \/ (keyCode event = 8 /\ (el', effs) = backspace el).
Proof.
  unfold keydownHandler.
  destruct (RegExp_new _) as [re|]; [|discriminate].
  destruct (_ && includes _ _); [intros [= <- <-]; auto|].
  destruct (_ && negb _); [intros [= <- <-]; auto|].
  destruct (includes_code [8] (keyCode event)) eqn:K.
  - intros [= E]. right. split; [|now symmetry].
    unfold includes_code in K. cbn [existsb] in K.
    rewrite orb_false_r in K. now apply Z.eqb_eq in K.
  - intros [= <- <-]; auto.
Qed.

(** X12.  [keydownHandler] keeps the state of the engine: when it
    returns, [options], [masked], [unmaskedValue] and [oldValue] are the
    ones it found; of the fields the engine keeps, only the text can have
    changed. *)
Theorem keydown_keeps_engine_state
        (event : KeyboardEvent) (el el' : CustomInputElement) (effs : list Effect) :
  keydownHandler event el = Returned (el', effs) ->
  options el' = options el
  /\ masked el' = masked el
  /\ unmaskedValue el' = unmaskedValue el
  /\ oldValue el' = oldValue el.
Proof.
  intros R. destruct (keydownHandler_cases event el el' effs R) as [[-> _] | [_ B]].
  - repeat split.
  - destruct (backspace_cases el) as [E | [E | [(v & p & E) | (v & E)]]];
      rewrite E in B; injection B as -> _; repeat split.
Qed.

(** X13.  Only backspace edits the text: for a key whose code is not 8
    the handler returns the element as it found it, dispatches nothing,
    and at most calls [preventDefault]. *)
Theorem keydown_edits_only_on_backspace
        (event : KeyboardEvent) (el el' : CustomInputElement) (effs : list Effect) :
  keyCode event <> 8 ->
  keydownHandler event el = Returned (el', effs) ->
  el' = el /\ (effs = [] \/ effs = [preventDefault]).
Proof.
  intros K R. destruct (keydownHandler_cases event el el' effs R) as [C | [B _]].
  - exact C.
  - now elim K.
Qed.


(** X15.  Every event [keydownHandler] dispatches is a plain input
    event without the marker, dispatched after [preventDefault] on a
    backspace keydown; the input handler does not return early on it but
    processes it. *)
Theorem keydown_dispatches_unmarked_input
        {NF : NumberFormat}
        (event : KeyboardEvent) (el el' : CustomInputElement) (effs : list Effect)
        (e : CustomInputEvent) (target : CustomInputElement) :
  keydownHandler event el = Returned (el', effs) ->
  In (dispatchEvent e) effs ->
  e = Event "input"
  /\ keyCode event = 8
  /\ hd_error effs = Some preventDefault
  /\ In stopPropagation (effects_of (inputHandler e target)).
Proof.
  intros R I.
  assert (S : e = Event "input" /\ keyCode event = 8
              /\ hd_error effs = Some preventDefault).
  { destruct (keydownHandler_cases event el el' effs R) as [[_ [-> | ->]] | [K B]].
    - destruct I.
    - destruct I as [I | []]. discriminate I.
    - destruct (backspace_cases el) as [E | [E | [(v & p & E) | (v & E)]]];
        rewrite E in B; injection B as _ ->;
        cbn [In] in I;
        repeat (destruct I as [I|I]; try discriminate I;
                try (injection I as <-; repeat split; assumption));
        destruct I. }
  destruct S as (-> & K & Hd). repeat split; try assumption.
  rewrite (inputHandler_edit (Event "input") target eq_refl).
  destruct (selectionEnd target); [destruct (negb _)|];
    unfold effects_of; cbn [fst snd In]; auto.
Qed.

(** X16.  Backspace behind any other character: when the character
    before the caret is neither the separator, nor the whole prefix, nor
    [-], the handler does nothing and the browser deletes as usual. *)
Theorem backspace_behind_other_character
        (event : KeyboardEvent) (el : CustomInputElement) (re : RegExp) :
  let o := options el in
  is_backspace event ->
  single_char (decimal o) ->
  RegExp_new (prefix o ++ "|" ++ suffix o)%string = Some re ->
  character_before_caret el <> separator o ->
  character_before_caret el <> prefix o ->
  character_before_caret el <> "-" ->
  keydownHandler event el = Returned (el, []).
Proof.
  intros o Back Dec Re Sep Pre Minus.
  rewrite (keydown_backspace event el re Back Dec Re).
  unfold backspace. fold (character_before_caret el). fold o.
  apply String.eqb_neq in Sep, Pre, Minus.
  unfold includes_string. cbn [existsb].
  now rewrite Sep, Pre, Minus.
Qed.

End KeydownTable.

(** ** Backspace behind a separator *)

Lemma substring_behind (before s : string) (k m : nat) :
  substring (String.length before + k) m (before ++ s)%string = substring k m s.
Proof.
  induction before as [|c before IH]; [reflexivity | exact IH].
Qed.

Lemma slice_before_leading (s : string) :
  (2 <= String.length s)%nat -> slice s (1 - 2) 1 = "".
Proof.
  intros L. change (1 - 2) with (-1). unfold slice.
  change (-1 <? 0) with true. change (1 <? 0) with false. cbv iota.
  set (from := Z.max (len s + -1) 0).
  set (to := Z.min 1 (len s)).
  replace (Z.to_nat (Z.max (to - from) 0)) with 0%nat
    by (unfold from, to, len; lia).
  apply substring_nothing.
Qed.

Section BackspaceSeparator.

Context {H : Host}.

(** X17.  Backspace behind a separator deletes the separator and the
    character before it, at the caret, when that pair of characters does
    not occur earlier in the text: the text [before ++ d ++ sep ++ rest]
    with the caret behind [sep] becomes [before ++ rest], and the caret
    keeps its distance from the end before the affix floors apply. *)
Theorem backspace_deletes_pair_at_caret
        (event : KeyboardEvent) (el : CustomInputElement) (re : RegExp)
        (before rest : string) (d c : ascii) :
  let o := options el in
  is_backspace event ->
  single_char (decimal o) ->
  RegExp_new (prefix o ++ "|" ++ suffix o)%string = Some re ->
  value el = (before ++ String d (String c rest))%string ->
  separator o = String c "" ->
  selectionEnd el = Some (String.length before + 2)%nat ->
  (forall k, (k < String.length before)%nat ->
             String.prefix (String d (String c "")) (drop k (value el)) = false) ->
  keydownHandler event el
  = let p := caret o (len (before ++ rest)%string) (len rest) in
    Returned (set_value (before ++ rest) el,
              [preventDefault; setSelectionRange p p; setSelectionRange p p;
               dispatchEvent (Event "input")]).
Proof.
  intros o Back Dec Re V Sep Sel Free.
  rewrite (keydown_backspace event el re Back Dec Re).
  unfold backspace. fold o. rewrite Sel, V in *.
  set (n := String.length before) in *.
  assert (L : len (before ++ String d (String c rest))%string
              = Z.of_nat n + 2 + len rest).
  { unfold len. rewrite length_append. simpl. fold n. lia. }
  assert (C : slice (before ++ String d (String c rest))
                    (Z.of_nat (n + 2) - 1) (Z.of_nat (n + 2)) = String c "").
  { rewrite slice_inside by (pose proof (len_nonneg_of rest); lia).
    replace (Z.to_nat (Z.of_nat (n + 2) - 1)) with (n + 1)%nat by lia.
    replace (Z.to_nat (Z.of_nat (n + 2) - (Z.of_nat (n + 2) - 1))) with 1%nat by lia.
    unfold n. rewrite substring_behind. simpl. now destruct rest. }
  assert (P : slice (before ++ String d (String c rest))
                    (Z.of_nat (n + 2) - 2) (Z.of_nat (n + 2))
              = String d (String c "")).
  { rewrite slice_inside by (pose proof (len_nonneg_of rest); lia).
    replace (Z.to_nat (Z.of_nat (n + 2) - 2)) with (n + 0)%nat by lia.
    replace (Z.to_nat (Z.of_nat (n + 2) - (Z.of_nat (n + 2) - 2))) with 2%nat by lia.
    unfold n. rewrite substring_behind. simpl. now destruct rest. }
  rewrite C, P, Sep, String.eqb_refl.
  change (before ++ String d (String c rest))%string
    with (before ++ String d (String c "") ++ rest)%string.
  rewrite replace_first_occurrence by exact Free.
  change (before ++ String d (String c "") ++ rest)%string
    with (before ++ String d (String c rest))%string.
  rewrite L.
  replace (Z.of_nat n + 2 + len rest - Z.of_nat (n + 2)) with (len rest) by lia.
  unfold updateCursor. cbn [selectionEnd set_value]. rewrite Sel. reflexivity.
Qed.

(** X18.  Backspace behind a separator always takes exactly two
    characters off the text, wherever in the text it takes them: with the
    caret at [sel], at least 2 and inside the text, the new text is two
    characters shorter, the default deletion is suppressed and an input
    event is dispatched. *)
Theorem backspace_over_separator_removes_two_characters
        (event : KeyboardEvent) (el : CustomInputElement) (re : RegExp) (sel : nat) :
  let o := options el in
  is_backspace event ->
  single_char (decimal o) ->
  RegExp_new (prefix o ++ "|" ++ suffix o)%string = Some re ->
  selectionEnd el = Some sel ->
  (2 <= sel <= String.length (value el))%nat ->
  character_before_caret el = separator o ->
  exists v,
    len v = len (value el) - 2
    /\ keydownHandler event el
       = let p := caret o (len v) (len (value el) - Z.of_nat sel) in
         Returned (set_value v el,
                   [preventDefault; setSelectionRange p p; setSelectionRange p p;
                    dispatchEvent (Event "input")]).
Proof.
  intros o Back Dec Re Sel In2 Char.
  rewrite (keydown_backspace event el re Back Dec Re).
  unfold backspace. fold (character_before_caret el). fold o.
  rewrite Char, String.eqb_refl, Sel.
  set (pair := slice (value el) (Z.of_nat sel - 2) (Z.of_nat sel)).
  exists (replace pair "" (value el)).
  split; [|unfold updateCursor; cbn [selectionEnd set_value]; rewrite Sel;
           reflexivity].
  assert (P : pair = substring (sel - 2) 2 (value el)).
  { unfold pair. rewrite slice_inside by (unfold len; lia).
    f_equal; lia. }
  pose proof (replace_length pair (value el)) as R.
  rewrite P in R at 1. specialize (R (includes_substring _ _ _)).
  assert (L : String.length pair = 2%nat)
    by (rewrite P; apply substring_length; lia).
  unfold len. cbn [value set_value]. lia.
Qed.

(** X19.  Backspace behind a leading separator deletes nothing: with
    the caret at position 1 of a text of two characters or more whose
    first character is the separator, the handler suppresses the default
    deletion and dispatches an input event, and the text stays as it
    is. *)
Theorem backspace_behind_leading_separator
        (event : KeyboardEvent) (el : CustomInputElement) (re : RegExp) :
  let o := options el in
  is_backspace event ->
  single_char (decimal o) ->
  RegExp_new (prefix o ++ "|" ++ suffix o)%string = Some re ->
  selectionEnd el = Some 1%nat ->
  (2 <= String.length (value el))%nat ->
  character_before_caret el = separator o ->
  keydownHandler event el
  = let p := caret o (len (value el)) (len (value el) - 1) in
    Returned (el,
              [preventDefault; setSelectionRange p p; setSelectionRange p p;
               dispatchEvent (Event "input")]).
Proof.
  intros o Back Dec Re Sel Long Char.
  rewrite (keydown_backspace event el re Back Dec Re).
  unfold backspace. fold (character_before_caret el). fold o.
  rewrite Char, String.eqb_refl, Sel.
  change (Z.of_nat 1) with 1.
  rewrite slice_before_leading by exact Long.
  rewrite replace_equation, prefix_empty. cbn [append String.length drop].
  rewrite set_value_same. unfold updateCursor. rewrite Sel. reflexivity.
Qed.

End BackspaceSeparator.

(** ** [getInputElement] *)

Lemma first_input_head : forall el, first_input el = hd_error (inputs_of el).
Proof.
  fix IH 1. intros [input | children]; [reflexivity|].
  cbn [first_input inputs_of].
  induction children as [|c children IHc]; [reflexivity|].
  cbn [find_first flat_map]. rewrite IH.
  destruct (inputs_of c); [exact IHc | reflexivity].
Qed.

(** X20.  [getInputElement] returns the element itself when it is an
    input, and otherwise the first input among its descendants in
    document order; it throws exactly when the tree holds no input. *)
Theorem getInputElement_returns_first_input (el : HTMLElement) :
  getInputElement el
  = match inputs_of el with
    | input :: _ => Returned input
    | [] => Thrown "facade directive requires an input element"
    end.
Proof.
  pose proof (first_input_head el) as F.
  unfold getInputElement, querySelector_input.
  destruct el as [input | children]; [reflexivity|].
  cbn [first_input] in F. rewrite F.
  now destruct (inputs_of (HTMLOtherElement children)).
Qed.

(** ** From a keydown to the input handler *)

Section KeydownThenInput.

Context {NF : NumberFormat} {H : Host}.

Lemma keydown_dispatch_shape
      (event : KeyboardEvent) (el el' : CustomInputElement) (effs : list Effect)
      (e : CustomInputEvent) :
  keydownHandler event el = Returned (el', effs) ->
  In (dispatchEvent e) effs ->
  e = Event "input" /\ options el' = options el /\ oldValue el' = oldValue el.
Proof.
  intros R I.
  destruct (keydownHandler_cases event el el' effs R) as [[_ [-> | ->]] | [K B]].
  - destruct I.
  - destruct I as [I | []]. discriminate I.
  - destruct (backspace_cases el) as [E | [E | [(v & p & E) | (v & E)]]];
      rewrite E in B; injection B as -> ->;
      cbn [In] in I;
      repeat (destruct I as [I|I]; try discriminate I;
              try (injection I as <-; repeat split));
      destruct I.
Qed.

(** X21.  The text a keydown leaves is reformatted by the input event
    it dispatches: when [keydownHandler] has dispatched an event and the
    text it left differs from [oldValue], the input handler run on that
    event and element sets the text and [masked] to the formatted text,
    under the options the keydown found. *)
Theorem keydown_edit_is_reformatted
        (event : KeyboardEvent) (el el' : CustomInputElement) (effs : list Effect)
        (e : CustomInputEvent) :
  let r := inputHandler e el' in
  keydownHandler event el = Returned (el', effs) ->
  In (dispatchEvent e) effs ->
  strict_eq (oldValue el) (Some (Str (value el'))) = false ->
  value (element_of r) = format (options el) false (Str (value el'))
  /\ masked (element_of r) = Some (Str (format (options el) false (Str (value el')))).
Proof.
  intros r R I Changed. subst r.
  destruct (keydown_dispatch_shape event el el' effs e R I) as (-> & O & V).
  rewrite <- V in Changed. rewrite <- O.
  rewrite (inputHandler_edit (Event "input") el' eq_refl).
  rewrite updateValue_done by (rewrite Changed; reflexivity).
  rewrite recomputed_while_typing. cbn [fst snd].
  destruct (selectionEnd el'); [destruct (negb _)|]; split; reflexivity.
Qed.

End KeydownThenInput.

(** ** The properties above on sample fields *)

Lemma dispatched_event_is_not_reprocessed_witness :
  let target := Samples.field Samples.plain "12" 2 (Some (Str "1")) "1" "1" in
  inputHandler (NF := SpecNumberFormat) (H := LiteralHost.host) FacadeInputEvent target
  = (target, [], Some false)
  /\ blurHandler (NF := SpecNumberFormat) (H := LiteralHost.host) FacadeInputEvent target
     = (target, [], Some false).
Proof.
  intros target.
  apply (dispatched_event_is_not_reprocessed (NF := SpecNumberFormat)
           (H := LiteralHost.host) (Event "input") target FacadeInputEvent target).
  left. do 3 right. left. reflexivity.
Defined.

Lemma blur_always_recomputes_and_notifies_witness :
  let target := Samples.field Samples.plain "1234" 4 (Some (Str "1234")) "1234" "1234" in
  let r := blurHandler (NF := SpecNumberFormat) (H := LiteralHost.host)
                       (Event "blur") target in
  value (element_of r) = "1,234"
  /\ masked (element_of r) = Some (Str (value (element_of r)))
  /\ effects_of r = [dispatchEvent FacadeInputEvent; dispatchEvent FacadeChangeEvent].
Proof.
  intros target r.
  apply (blur_always_recomputes_and_notifies (NF := SpecNumberFormat)
           (H := LiteralHost.host) (Event "blur") target).
  reflexivity.
Defined.

Lemma blur_checks_max_before_min_witness :
  let target := Samples.field
                  (Samples.with_bounds (Some (of_Z 200)) (Some (of_Z 100)) Samples.plain)
                  "150" 3 (Some (Str "150")) "150" "150" in
  let el := element_of (blurHandler (NF := SpecNumberFormat) (H := LiteralHost.host)
                                    (Event "blur") target) in
  value el = "100" /\ masked el = Some (Str "100") /\ unmaskedValue el = Some (Str "100").
Proof.
  intros target el.
  apply (blur_checks_max_before_min (NF := SpecNumberFormat) (H := LiteralHost.host)
           (Event "blur") target (of_Z 100)).
  - reflexivity.
  - reflexivity.
  - left. split; reflexivity.
Defined.

Lemma blur_leaves_nan_unclamped_witness :
  let target := Samples.field not_available "" 0 (Some (Str "5")) "5" "5" in
  let el := element_of (blurHandler (NF := NullValueNumberFormat) (H := LiteralHost.host)
                                    (Event "blur") target) in
  value el = "n/a" /\ unmaskedValue el = Some (Str "n/a").
Proof.
  intros target el.
  apply (blur_leaves_nan_unclamped (NF := NullValueNumberFormat) (H := LiteralHost.host)
           (Event "blur") target); reflexivity.
Defined.

Lemma keydown_keeps_engine_state_witness :
  let el := Samples.field (Samples.with_prefix "R" Samples.plain)
                          "R1,234" 1 (Some (Str "R1,234")) "R1,234" "1234" in
  options (set_value "" el) = options el
  /\ masked (set_value "" el) = masked el
  /\ unmaskedValue (set_value "" el) = unmaskedValue el
  /\ oldValue (set_value "" el) = oldValue el.
Proof.
  intros el.
  apply (keydown_keeps_engine_state (H := LiteralHost.host) Samples.Backspace el
           (set_value "" el) [preventDefault; dispatchEvent (Event "input")]).
  reflexivity.
Defined.

Lemma keydown_edits_only_on_backspace_witness :
  let el := Samples.field (Samples.with_bounds (Some zero) None Samples.plain)
                          "12" 2 (Some (Str "12")) "12" "12" in
  el = el
  /\ ([preventDefault] = @nil Effect \/ [preventDefault] = [preventDefault]).
Proof.
  intros el.
  apply (keydown_edits_only_on_backspace (H := LiteralHost.host)
           Samples.NumpadSubtract el el [preventDefault]).
  - discriminate.
  - reflexivity.
Defined.


Lemma keydown_dispatches_unmarked_input_witness :
  let el := Samples.field (Samples.with_prefix "R" Samples.plain)
                          "R1,234" 1 (Some (Str "R1,234")) "R1,234" "1234" in
  Event "input" = Event "input"
  /\ keyCode Samples.Backspace = 8
  /\ hd_error [preventDefault; dispatchEvent (Event "input")] = Some preventDefault
  /\ In stopPropagation
        (effects_of (inputHandler (NF := SpecNumberFormat) (H := LiteralHost.host)
                                  (Event "input") (set_value "" el))).
Proof.
  intros el.
  apply (keydown_dispatches_unmarked_input (H := LiteralHost.host)
           (NF := SpecNumberFormat) Samples.Backspace el
           (set_value "" el) [preventDefault; dispatchEvent (Event "input")]
           (Event "input") (set_value "" el)).
  - reflexivity.
  - right. left. reflexivity.
Defined.

Lemma backspace_behind_other_character_witness :
  let el := Samples.field Samples.plain "1,234" 5 (Some (Str "1,234")) "1,234" "1234" in
  keydownHandler (H := LiteralHost.host) Samples.Backspace el = Returned (el, []).
Proof.
  intros el.
  apply (backspace_behind_other_character (H := LiteralHost.host)
           Samples.Backspace el ("", "")).
  - split; reflexivity.
  - reflexivity.
  - reflexivity.
  - discriminate.
  - discriminate.
  - discriminate.
Defined.

Lemma backspace_deletes_pair_at_caret_witness :
  let el := Samples.field Samples.plain "12,345" 3 (Some (Str "12,345")) "12,345" "12345" in
  keydownHandler (H := LiteralHost.host) Samples.Backspace el
  = Returned (set_value "1345" el,
              [preventDefault; setSelectionRange 1 1; setSelectionRange 1 1;
               dispatchEvent (Event "input")]).
Proof.
  intros el.
  apply (backspace_deletes_pair_at_caret (H := LiteralHost.host)
           Samples.Backspace el ("", "") "1" "345" "2" ",").
  - split; reflexivity.
  - reflexivity.
  - reflexivity.
  - reflexivity.
  - reflexivity.
  - reflexivity.
  - intros [|k] L; [reflexivity | simpl in L; lia].
Defined.

Lemma backspace_over_separator_removes_two_characters_witness :
  let el := Samples.field Samples.plain "1,231,234" 6
                          (Some (Str "1,231,234")) "1,231,234" "1231234" in
  exists v,
    len v = 9 - 2
    /\ keydownHandler (H := LiteralHost.host) Samples.Backspace el
       = let p := caret Samples.plain (len v) (9 - 6) in
         Returned (set_value v el,
                   [preventDefault; setSelectionRange p p; setSelectionRange p p;
                    dispatchEvent (Event "input")]).
Proof.
  intros el.
  apply (backspace_over_separator_removes_two_characters (H := LiteralHost.host)
           Samples.Backspace el ("", "") 6).
  - split; reflexivity.
  - reflexivity.
  - reflexivity.
  - reflexivity.
  - simpl. lia.
  - reflexivity.
Defined.

Lemma backspace_behind_leading_separator_witness :
  let el := Samples.field Samples.plain ",234" 1 (Some (Str "1,234")) "1,234" "1234" in
  keydownHandler (H := LiteralHost.host) Samples.Backspace el
  = Returned (el, [preventDefault; setSelectionRange 1 1; setSelectionRange 1 1;
                   dispatchEvent (Event "input")]).
Proof.
  intros el.
  apply (backspace_behind_leading_separator (H := LiteralHost.host)
           Samples.Backspace el ("", "")).
  - split; reflexivity.
  - reflexivity.
  - reflexivity.
  - reflexivity.
  - simpl. lia.
  - reflexivity.
Defined.

Lemma keydown_edit_is_reformatted_witness :
  let el := Samples.field (Samples.with_prefix "R" Samples.dollars)
                          "R1" 1 (Some (Str "R1.00 USD")) "R1.00 USD" "1" in
  let r := inputHandler (NF := SpecNumberFormat) (H := LiteralHost.host)
                        (Event "input") (set_value "" el) in
  value (element_of r) = "R0 USD" /\ masked (element_of r) = Some (Str "R0 USD").
Proof.
  intros el r.
  apply (keydown_edit_is_reformatted (NF := SpecNumberFormat) (H := LiteralHost.host)
           Samples.Backspace el (set_value "" el)
           [preventDefault; dispatchEvent (Event "input")] (Event "input")).
  - reflexivity.
  - right. left. reflexivity.
  - reflexivity.
Defined.
